(** * Context-budgeted answer generation: a shallow embedding of
    [rag_system.py] and of the [/api/] endpoint of [app.py].

    Python values are modelled as follows.
    - [str] is a sequence of Unicode code points ([list N]).
    - a [dict] with string keys is a [gmap string _].
    - [len(...)] results and token counts are [nat].
    - a call that may raise returns an [outcome]; the exceptions are the
      instances of [Exception], the ones [except Exception] catches.
    - calls to the external services (embedding endpoint, vector index,
      chat endpoint) thread an abstract [world] through the computation,
      so that a service may answer differently at each call.
    - [tiktoken] is a parameter: it gives the tokens of a text for a
      model name, or raises for a text it refuses, so that every call to
      [num_tokens_from_string] may raise.
    - the values of a passage dict that the program reads (text, title,
      url) are strings, as in the PassageRecord of the specification.
    The [print] calls of the source are left out. *)

From Stdlib Require Import NArith Ascii String QArith.
From stdpp Require Import base option list gmap strings.

Local Open Scope nat_scope.

(** ** Python built-ins used by the program *)

Module Py.

Definition char := N.
Definition str := list char.

(** An ASCII literal of the source, as a [str]. *)
Definition lit (s : string) : str :=
  (fun a => N_of_ascii a) <$> list_ascii_of_string s.

(** The line feed, written [\n] in the source. *)
Definition nl : str := [10%N].

(** [str.isspace] on one code point: the white space of CPython's
    [_PyUnicode_IsWhitespace]. *)
Definition isspace (c : char) : bool :=
  ((9 <=? c) && (c <=? 13))%N
  || ((28 <=? c) && (c <=? 32))%N
  || (c =? 133)%N || (c =? 160)%N || (c =? 5760)%N
  || ((8192 <=? c) && (c <=? 8202))%N
  || (c =? 8232)%N || (c =? 8233)%N || (c =? 8239)%N
  || (c =? 8287)%N || (c =? 12288)%N.

Fixpoint lstrip (s : str) : str :=
  match s with
  | [] => []
  | c :: s' => if isspace c then lstrip s' else s
  end.

Definition rstrip (s : str) : str := reverse (lstrip (reverse s)).

(** [s.strip()] *)
Definition strip (s : str) : str := rstrip (lstrip s).

(** [s.startswith(p)] *)
Fixpoint startswith (s p : str) : bool :=
  match p, s with
  | [], _ => true
  | _ :: _, [] => false
  | a :: p', b :: s' => (a =? b)%N && startswith s' p'
  end.

(** [s.split(sep, 1)] for a separator of one character: the whole string
    when the separator does not occur, else the text before and the text
    after its first occurrence. *)
Fixpoint split_once (sep : char) (s : str) : list str :=
  match s with
  | [] => [[]]
  | c :: s' =>
      if (c =? sep)%N then [[]; s']
      else match split_once sep s' with
           | before :: rest => (c :: before) :: rest
           | [] => [[c]]
           end
  end.

(** [sep.join(parts)] *)
Fixpoint join (sep : str) (parts : list str) : str :=
  match parts with
  | [] => []
  | [p] => p
  | p :: ps => p ++ sep ++ join sep ps
  end.

(** Truth value of an optional list ([None] and [[]] are false). *)
Definition truthy {A} (l : option (list A)) : bool :=
  match l with
  | Some (_ :: _) => true
  | _ => false
  end.

(** [d.get(key, dflt)] *)
Definition get {V} (d : gmap string V) (key : string) (dflt : V) : V :=
  default dflt (d !! key).

End Py.

Import Py.

(** ** Exceptions and results of calls *)

(** Instances of [Exception]. *)
Inductive exn :=
| IndexError
| AttributeError
| KeyError (key : string)
| ValidationError
| ValueError (message : str)
| HTTPException (status_code : nat) (detail : str)
| ServiceError (message : str).

Inductive outcome (A : Type) :=
| Returns (a : A)
| Raises (e : exn).
Arguments Returns {A} a.
Arguments Raises {A} e.

(** [l[i]] *)
Definition subscript {A} (l : list A) (i : nat) : outcome A :=
  match l !! i with
  | Some x => Returns x
  | None => Raises IndexError
  end.

(** ** Data model *)

(** A retrieved passage: the string entries of the dict built by
    [retrieve_documents]. *)
Abbreviation doc := (gmap string str).

(** [{"title": ..., "url": ...}] *)
Record citation := Citation { title : str; url : str }.

(** Values stored in the dict returned by the pipeline. *)
Inductive pyval :=
| PStr (s : str)
| PList (l : list citation)
| PNone.

Abbreviation answer_result := (gmap string pyval).

(** ** Constants of [rag_system.py] *)

Definition LLM_MODEL_VISION : str := lit "gpt-4o".
Definition LLM_MODEL_TEXT_ONLY : str := lit "gpt-3.5-turbo".
Definition MAX_TOKENS_FOR_LLM_VISION : nat := 4096.
Definition RESERVED_QUERY_TOKENS : nat := 500.

Definition system_prompt_template : str :=
  lit "You are a helpful assistant that answers questions based on the provided text context and any given images."
  ++ nl ++
  lit "If the answer is not available in the provided text context, politely state that you don't have enough information."
  ++ nl ++
  lit "If images are provided, analyze them to help answer the question."
  ++ nl ++
  lit "Avoid making up answers."
  ++ nl ++ nl ++
  lit "Context:".

(** ** The context packer: lines 115-134 of [generate_llm_response] *)

Definition doc_content (d : doc) : str := get d "text" [].
Definition doc_url (d : doc) : str := get d "url" (lit "#").
Definition doc_title (d : doc) : str := get d "title" (lit "No Title").

Definition doc_for_llm (d : doc) : str :=
  nl ++ nl ++ lit "--- Document from " ++ doc_title d
  ++ lit " (Source: " ++ doc_url d ++ lit ") ---" ++ nl ++ doc_content d.

Definition citation_of (d : doc) : citation :=
  {| title := doc_title d; url := doc_url d |}.

(** The variables the loop updates. *)
Record locals := Locals {
  context_str_parts : list str;
  sources : list citation;
  current_tokens : nat
}.

(** What one iteration does to the loop: go on, or [break]. *)
Inductive flow :=
| Continue (st : locals)
| Break (st : locals).

Section Packer.

(** [num_tokens_from_string(_, llm_model_to_use)] and the value of
    [max_tokens_for_llm_effective]. *)
Variable num_tokens : str -> nat.
Variable budget : nat.

Definition loop_body (st : locals) (d : doc) : flow :=
  let doc_tokens := num_tokens (doc_for_llm d) in
  if current_tokens st + doc_tokens <? budget then
    Continue {| context_str_parts := context_str_parts st ++ [doc_for_llm d];
                sources := sources st ++ [citation_of d];
                current_tokens := current_tokens st + doc_tokens |}
  else Break st.

Fixpoint for_doc_in (retrieved_documents : list doc) (st : locals) : locals :=
  match retrieved_documents with
  | [] => st
  | d :: rest =>
      match loop_body st d with
      | Continue st' => for_doc_in rest st'
      | Break st' => st'
      end
  end.

(** The first value of [current_tokens] (line 118). *)
Definition base_tokens (reserved : nat) (query : str) : nat :=
  num_tokens (system_prompt_template ++ query) + reserved.

(** The packer, with the reserve as a parameter. *)
Definition pack (reserved : nat) (query : str) (retrieved_documents : list doc)
  : locals :=
  for_doc_in retrieved_documents
    {| context_str_parts := [];
       sources := [];
       current_tokens := base_tokens reserved query |}.

(** Tokens of the blocks of some passages, each block counted alone. *)
Definition block_tokens (docs : list doc) : nat :=
  sum_list (num_tokens ∘ doc_for_llm <$> docs).

End Packer.

(** The same loop with its calls to the tokenizer, each of which may raise:
    lines 118 and 126 are outside every [try] of [generate_llm_response].
    Once the count of a block is there, the body goes on as [loop_body]. *)
Section PackerRun.

Variable count : str -> outcome nat.
Variable budget : nat.

Definition loop_body_run (st : locals) (d : doc) : outcome flow :=
  match count (doc_for_llm d) with
  | Returns doc_tokens => Returns (loop_body (fun _ => doc_tokens) budget st d)
  | Raises e => Raises e
  end.

Fixpoint for_doc_in_run (retrieved_documents : list doc) (st : locals)
  : outcome locals :=
  match retrieved_documents with
  | [] => Returns st
  | d :: rest =>
      match loop_body_run st d with
      | Returns (Continue st') => for_doc_in_run rest st'
      | Returns (Break st') => Returns st'
      | Raises e => Raises e
      end
  end.

Definition pack_run (reserved : nat) (query : str)
    (retrieved_documents : list doc) : outcome locals :=
  match count (system_prompt_template ++ query) with
  | Returns prompt_tokens =>
      for_doc_in_run retrieved_documents
        {| context_str_parts := [];
           sources := [];
           current_tokens := prompt_tokens + reserved |}
  | Raises e => Raises e
  end.

End PackerRun.

(** ** Calls to the external services *)

(** A computation that may call an external service: it reads and changes
    the [world] and returns or raises. *)
Definition M (world A : Type) : Type := world -> outcome A * world.

#[global] Instance M_ret {world} : MRet (M world) :=
  fun A a w => (Returns a, w).

#[global] Instance M_bind {world} : MBind (M world) :=
  fun A B f m w =>
    match m w with
    | (Returns a, w') => f a w'
    | (Raises e, w') => (Raises e, w')
    end.

(** A local computation inside [M]. *)
Definition lift {world A} (o : outcome A) : M world A := fun w => (o, w).

(** [raise e] *)
Definition raise {world A} (e : exn) : M world A := fun w => (Raises e, w).

(** [try: body except Exception as e: handler(e)] *)
Definition try_except {world A} (body : M world A) (handler : exn -> M world A)
  : M world A :=
  fun w =>
    match body w with
    | (Returns a, w') => (Returns a, w')
    | (Raises e, w') => handler e w'
    end.

(** The request of [openai_client.chat.completions.create]. *)
Inductive content_part :=
| TextPart (text : str)
| ImageUrlPart (image_url detail : str).

Inductive message_content :=
| Text (s : str)
| Parts (l : list content_part).

Record message := Message { role : str; content : message_content }.

Record chat_request := ChatRequest {
  model : str;
  messages : list message;
  temperature : Q;
  max_tokens : nat
}.

(** Its response: [choices[i].message.content] for each choice, [None] when
    the choice carries no text. *)
Record chat_completion := ChatCompletion { choices : list (option str) }.

(** [content.strip()] on a value that may be [None]. *)
Definition strip_method (content : option str) : outcome str :=
  match content with
  | Some s => Returns (strip s)
  | None => Raises AttributeError
  end.

Definition LLM_APOLOGY : str :=
  lit "I'm sorry, I encountered an error while trying to generate a response.".
Definition RAG_APOLOGY : str :=
  lit "I'm sorry, an internal error occurred in the RAG system.".

(** [{"answer": a, "sources": s}] *)
Definition answer_dict (a : str) (s : list citation) : answer_result :=
  {[ "answer" := PStr a; "sources" := PList s ]}.

Section Pipeline.

(** The state of the outside world and two collaborators: [tiktoken] and
    the chat endpoint.  [tiktoken] refuses some texts: [encode_error m t] is
    the exception it raises for the model [m] and the text [t] (a
    [ValueError] when [t] holds a special token, a [KeyError] for a model it
    does not know), and [encoding_for_model m t] is the list of tokens of a
    text it accepts. *)
Variable world : Type.
Variable encoding_for_model : str -> str -> list nat.
Variable encode_error : str -> str -> option exn.
Variable chat_completions_create : chat_request -> M world chat_completion.

Definition num_tokens_from_string (text model_name : str) : outcome nat :=
  match encode_error model_name text with
  | Some e => Raises e
  | None => Returns (length (encoding_for_model model_name text))
  end.

(** *** [generate_llm_response] *)

Definition llm_model_to_use (image_data_list : option (list str)) : str :=
  if truthy image_data_list then LLM_MODEL_VISION else LLM_MODEL_TEXT_ONLY.

Definition max_tokens_for_llm_effective (image_data_list : option (list str))
  : nat :=
  if truthy image_data_list then MAX_TOKENS_FOR_LLM_VISION
  else MAX_TOKENS_FOR_LLM_VISION.

(** The state of the loop when it ends (lines 115-134), for texts that the
    tokenizer accepts. *)
Definition pack_context (query : str) (retrieved_documents : list doc)
    (image_data_list : option (list str)) : locals :=
  pack (fun s => length (encoding_for_model (llm_model_to_use image_data_list) s))
       (max_tokens_for_llm_effective image_data_list)
       RESERVED_QUERY_TOKENS query retrieved_documents.

Definition full_context_str (query : str) (retrieved_documents : list doc)
    (image_data_list : option (list str)) : str :=
  join nl (context_str_parts
             (pack_context query retrieved_documents image_data_list)).

Definition image_part (base64_image : str) : content_part :=
  ImageUrlPart (lit "data:image/jpeg;base64," ++ base64_image) (lit "auto").

Definition user_content (query : str) (image_data_list : option (list str))
  : list content_part :=
  TextPart query ::
    (if truthy image_data_list
     then image_part <$> default [] image_data_list
     else []).

(** The arguments of the one call to the chat endpoint. *)
Definition chat_request_of (query : str) (retrieved_documents : list doc)
    (image_data_list : option (list str)) : chat_request :=
  {| model := llm_model_to_use image_data_list;
     messages :=
       [ {| role := lit "system";
            content := Text (system_prompt_template ++
               full_context_str query retrieved_documents image_data_list) |};
         {| role := lit "user";
            content := Parts (user_content query image_data_list) |} ];
     temperature := 7 # 10;
     max_tokens := 1000 |}.

(** Lines 115-134 as the source runs them: the loop with the calls to
    [num_tokens_from_string]. *)
Definition pack_context_run (query : str) (retrieved_documents : list doc)
    (image_data_list : option (list str)) : outcome locals :=
  pack_run (fun s => num_tokens_from_string s (llm_model_to_use image_data_list))
           (max_tokens_for_llm_effective image_data_list)
           RESERVED_QUERY_TOKENS query retrieved_documents.

(** Lines 136-162: the request built from the state the loop left. *)
Definition chat_request_from (st : locals) (query : str)
    (image_data_list : option (list str)) : chat_request :=
  {| model := llm_model_to_use image_data_list;
     messages :=
       [ {| role := lit "system";
            content := Text (system_prompt_template ++
                             join nl (context_str_parts st)) |};
         {| role := lit "user";
            content := Parts (user_content query image_data_list) |} ];
     temperature := 7 # 10;
     max_tokens := 1000 |}.

Definition generate_llm_response (query : str) (retrieved_documents : list doc)
    (image_data_list : option (list str)) : M world answer_result :=
  st ← lift (pack_context_run query retrieved_documents image_data_list);
  try_except
    (response ← chat_completions_create
                  (chat_request_from st query image_data_list);
     first_content ← lift (subscript (choices response) 0);
     llm_answer ← lift (strip_method first_content);
     mret (answer_dict llm_answer (sources st)))
    (fun e => mret (answer_dict LLM_APOLOGY [])).

End Pipeline.

(** ** The orchestrator *)

Section Orchestrator.

(** The callees of [generate_rag_answer].  [get_embedding] and
    [retrieve_documents] wrap the embedding endpoint and the vector index
    and re-raise what these raise; the orchestrator is defined over every
    behaviour of its three callees. *)
Variable world : Type.
Variable vector : Type.
Variable get_embedding : str -> M world vector.
Variable retrieve_documents : vector -> nat -> M world (list doc).
Variable generate_llm_response_stage :
  str -> list doc -> option (list str) -> M world answer_result.

(** The body of [generate_rag_answer] (lines 177-191). *)
Definition orchestrate (user_query : str)
    (image_data_list : option (list str)) : M world answer_result :=
  try_except
    (query_embedding ← get_embedding user_query;
     retrieved_documents ← retrieve_documents query_embedding 7;
     llm_output ← generate_llm_response_stage user_query retrieved_documents
                    image_data_list;
     mret llm_output)
    (fun e => mret (answer_dict RAG_APOLOGY [])).

(** An exception leaves one of the three stages. *)
Inductive stage_raises (user_query : str) (image_data_list : option (list str))
    (w : world) : exn -> world -> Prop :=
| embed_raises e w1 :
    get_embedding user_query w = (Raises e, w1) ->
    stage_raises user_query image_data_list w e w1
| retrieve_raises v w1 e w2 :
    get_embedding user_query w = (Returns v, w1) ->
    retrieve_documents v 7 w1 = (Raises e, w2) ->
    stage_raises user_query image_data_list w e w2
| generate_raises v w1 docs w2 e w3 :
    get_embedding user_query w = (Returns v, w1) ->
    retrieve_documents v 7 w1 = (Returns docs, w2) ->
    generate_llm_response_stage user_query docs image_data_list w2 = (Raises e, w3) ->
    stage_raises user_query image_data_list w e w3.

End Orchestrator.

(** [generate_rag_answer]: the orchestrator over [generate_llm_response]. *)
Definition generate_rag_answer (world vector : Type)
    (encoding_for_model : str -> str -> list nat)
    (encode_error : str -> str -> option exn)
    (chat_completions_create : chat_request -> M world chat_completion)
    (get_embedding : str -> M world vector)
    (retrieve_documents : vector -> nat -> M world (list doc))
  : str -> option (list str) -> M world answer_result :=
  orchestrate world vector get_embedding retrieve_documents
    (generate_llm_response world encoding_for_model encode_error
       chat_completions_create).

(** An exception is raised inside the [try] block of
    [generate_llm_response]: by the chat endpoint, by [choices[0]], or by
    [.strip()] on a missing content. *)
Inductive generation_raises : outcome chat_completion -> exn -> Prop :=
| service_raises e : generation_raises (Raises e) e
| no_choice response :
    choices response = [] ->
    generation_raises (Returns response) IndexError
| no_content response rest :
    choices response = None :: rest ->
    generation_raises (Returns response) AttributeError.

(** ** The [/api/] endpoint of [app.py] *)

Record QueryRequest := { question : str; image_data : option (list str) }.

(** The response model; its [Source] entries are [citation]s. *)
Record RAGResponse := { rag_answer : str; rag_sources : list citation }.

Definition comma : char := 44%N.
Definition DATA_IMAGE : str := lit "data:image/".
Definition API_ERROR_DETAIL : str :=
  lit "An error occurred while processing your request.".

(** The loop of lines 49-53; the second argument is the list built so far. *)
Fixpoint for_img_b64_in (image_data : list str) (image_list_for_rag : list str)
  : outcome (list str) :=
  match image_data with
  | [] => Returns image_list_for_rag
  | img_b64 :: rest =>
      if startswith img_b64 DATA_IMAGE then
        match subscript (split_once comma img_b64) 1 with
        | Returns payload => for_img_b64_in rest (image_list_for_rag ++ [payload])
        | Raises e => Raises e
        end
      else for_img_b64_in rest (image_list_for_rag ++ [img_b64])
  end.

(** Lines 47-53. *)
Definition image_list_for_rag (request : QueryRequest) : outcome (list str) :=
  if truthy (image_data request)
  then for_img_b64_in (default [] (image_data request)) []
  else Returns [].

(** [d[key]] *)
Definition getitem (d : answer_result) (key : string) : outcome pyval :=
  match d !! key with
  | Some v => Returns v
  | None => Raises (KeyError key)
  end.

(** Validation of the two fields of [RAGResponse]. *)
Definition validate_answer (v : pyval) : outcome str :=
  match v with
  | PStr s => Returns s
  | _ => Raises ValidationError
  end.

Definition validate_sources (v : pyval) : outcome (list citation) :=
  match v with
  | PList l => Returns l
  | _ => Raises ValidationError
  end.

Section Endpoint.

Variable world : Type.
Variable vector : Type.
Variable encoding_for_model : str -> str -> list nat.
Variable encode_error : str -> str -> option exn.
Variable chat_completions_create : chat_request -> M world chat_completion.
Variable get_embedding : str -> M world vector.
Variable retrieve_documents : vector -> nat -> M world (list doc).

(** Lines 56-58: the call of the pipeline with the list built before. *)
Definition call_rag (user_question : str) (image_list_for_rag : list str)
  : M world RAGResponse :=
  rag_output ← generate_rag_answer world vector encoding_for_model encode_error
                 chat_completions_create get_embedding retrieve_documents
                 user_question (Some image_list_for_rag);
  answer_value ← lift (getitem rag_output "answer");
  sources_value ← lift (getitem rag_output "sources");
  a ← lift (validate_answer answer_value);
  s ← lift (validate_sources sources_value);
  mret {| rag_answer := a; rag_sources := s |}.

Definition ask_question (request : QueryRequest) : M world RAGResponse :=
  try_except
    (images ← lift (image_list_for_rag request);
     call_rag (question request) images)
    (fun e => raise (HTTPException 500 API_ERROR_DETAIL)).

End Endpoint.

(** Lines 163-169 at a glance: the dict that [generate_llm_response]
    returns for an outcome of the chat call, [srcs] being the citations of
    the packer. *)
Definition completion_result (srcs : list citation)
    (o : outcome chat_completion) : answer_result :=
  match o with
  | Returns response =>
      match choices response with
      | Some c :: _ => answer_dict (strip c) srcs
      | _ => answer_dict LLM_APOLOGY []
      end
  | Raises _ => answer_dict LLM_APOLOGY []
  end.

(** ** Stand-ins for the external services, for running the definitions *)

(** A tokenizer without merges: one token per code point, for each model. *)
Definition char_encoding (model_name text : str) : list nat :=
  N.to_nat <$> text.

(** A world that records the requests sent to the services. *)
Inductive call :=
| EmbedCall (text : str)
| QueryCall (top_k : nat)
| ChatCall (request : chat_request).

Definition stub_embedding (o : outcome unit) : str -> M (list call) unit :=
  fun text w => (o, w ++ [EmbedCall text]).

Definition stub_retrieval (o : outcome (list doc))
  : unit -> nat -> M (list call) (list doc) :=
  fun _ top_k w => (o, w ++ [QueryCall top_k]).

Definition stub_chat (o : outcome chat_completion)
  : chat_request -> M (list call) chat_completion :=
  fun request w => (o, w ++ [ChatCall request]).

(** A tokenizer that accepts every text. *)
Definition accepts_all (model_name text : str) : option exn := None.

(** [needle in text] *)
Fixpoint contains (text needle : str) : bool :=
  startswith text needle
  || match text with
     | [] => false
     | _ :: rest => contains rest needle
     end.

(** A tokenizer that refuses a text with the special token
    [<|endoftext|>], as [encode] does. *)
Definition special_token_error (model_name text : str) : option exn :=
  if contains text (lit "<|endoftext|>")
  then Some (ValueError (lit "disallowed special token"))
  else None.

(** The pipeline and the endpoint over the stand-ins. *)
Definition stub_pipeline (e : outcome unit) (r : outcome (list doc))
    (c : outcome chat_completion) :=
  generate_rag_answer (list call) unit char_encoding accepts_all
    (stub_chat c) (stub_embedding e) (stub_retrieval r).

Definition stub_endpoint (e : outcome unit) (r : outcome (list doc))
    (c : outcome chat_completion) :=
  ask_question (list call) unit char_encoding accepts_all
    (stub_chat c) (stub_embedding e) (stub_retrieval r).

(** A passage dict with the three entries the packer reads. *)
Definition passage (t u x : str) : doc :=
  {[ "title" := t; "url" := u; "text" := x ]}.

(** A string of [n] letters [a]. *)
Definition filler (n : nat) : str := replicate n 97%N.


(** ** The properties of the specification, in the words of the specification *)

(** P1: the context, counted as one text, and the base stay below the
    budget. *)
Definition budget_respected (num_tokens : str -> nat) (budget reserved : nat)
    (query : str) (docs : list doc) : Prop :=
  num_tokens (join nl (context_str_parts (pack num_tokens budget reserved query docs)))
  + base_tokens num_tokens reserved query < budget.

(** P4: the result has an answer, a string that is not empty. *)
Definition nonempty_answer (r : answer_result) : Prop :=
  exists a, r !! "answer" = Some (PStr a) /\ a <> [].

(** P5: the result has its sources, a list. *)
Definition sources_present (r : answer_result) : Prop :=
  exists l, r !! "sources" = Some (PList l).

(** What the endpoint is said to forward for one submitted image. *)
Inductive forwarded_as : str -> str -> Prop :=
| forwarded_payload (before payload : str) :
    startswith (before ++ comma :: payload) DATA_IMAGE = true ->
    comma ∉ before ->
    forwarded_as (before ++ comma :: payload) payload
| forwarded_unchanged (img : str) :
    startswith img DATA_IMAGE = false ->
    forwarded_as img img.

(** ** Inputs on which the definitions are run *)

(** Token counts of the text-only model under [char_encoding]. *)
Definition text_only_count (s : str) : nat :=
  length (char_encoding LLM_MODEL_TEXT_ONLY s).

(** Four passages whose blocks have 100, 100, 5000 and 40 tokens under
    [char_encoding]. *)
Definition ranked_passages : list doc :=
  [ passage [] [] (filler 64); passage [] [] (filler 64);
    passage [] [] (filler 4964); passage [] [] (filler 4) ].

(** Two passages whose blocks have 1597 and 1598 tokens. *)
Definition two_long_passages : list doc :=
  [ passage [] [] (filler 1561); passage [] [] (filler 1562) ].

(** A completion whose only choice is one space. *)
Definition blank_completion : chat_completion :=
  {| choices := [Some (lit " ")] |}.

(** A completion whose only choice is an answer between spaces. *)
Definition plain_completion : chat_completion :=
  {| choices := [Some (lit " OLS is least squares. ")] |}.

(** A request with a data URL and a bare payload. *)
Definition sample_request : QueryRequest :=
  {| question := lit "What is in the picture?";
     image_data := Some [ lit "data:image/png;base64,iVBORw0KGgo=";
                          lit "R0lGODlh" ] |}.

(** A request whose image starts like a data URL and has no comma. *)
Definition commaless_request : QueryRequest :=
  {| question := lit "What is in the picture?";
     image_data := Some [ lit "data:image/png;base64" ] |}.

(** ** The embed and retrieve stages of [rag_system.py] *)

Definition EMBEDDING_MODEL : str := lit "text-embedding-3-small".

(** A value of the dict built for a match: a string, or the score. *)
Inductive field (float : Type) :=
| FStr (s : str)
| FFloat (x : float).
Arguments FStr {float} s.
Arguments FFloat {float} x.

(** A match of the vector index; [match_metadata] holds the string entries
    of its metadata. *)
Record index_match (float : Type) := IndexMatch {
  match_id : str;
  match_score : float;
  match_metadata : gmap string str
}.
Arguments IndexMatch {float} _ _ _.
Arguments match_id {float} _.
Arguments match_score {float} _.
Arguments match_metadata {float} _.

(** The dict appended at lines 81-87. *)
Definition retrieved_doc {float} (m : index_match float)
  : gmap string (field float) :=
  {[ "id" := FStr (match_id m);
     "score" := FFloat (match_score m);
     "text" := FStr (get (match_metadata m) "text" []);
     "title" := FStr (get (match_metadata m) "title" (lit "No Title"));
     "url" := FStr (get (match_metadata m) "url" (lit "#")) ]}.

(** The string entries of such a dict: what [generate_llm_response] can read
    of it through [.get] on ["text"], ["url"] and ["title"]. *)
Definition passage_of {float} (d : gmap string (field float)) : doc :=
  omap (fun v => match v with FStr s => Some s | FFloat _ => None end) d.

Section Retrieval.

(** The embedding endpoint gives the embeddings of [response.data]; the
    vector index is reached through [pc.Index(name)] and queried with
    [index.query(vector, top_k, include_metadata)], which gives
    [query_results.matches]. *)
Variable world : Type.
Variable float : Type.
Variable index_handle : Type.
Variable PINECONE_INDEX_NAME : str.
Variable embeddings_create : str -> str -> M world (list (list float)).
Variable pc_Index : str -> M world index_handle.
Variable index_query :
  index_handle -> list float -> nat -> bool -> M world (list (index_match float)).

Definition get_embedding (text : str) : M world (list float) :=
  try_except
    (response_data ← embeddings_create text EMBEDDING_MODEL;
     lift (subscript response_data 0))
    (fun e => raise e).

Definition retrieve_documents (query_embedding : list float) (top_k : nat)
  : M world (list (gmap string (field float))) :=
  try_except
    (index ← pc_Index PINECONE_INDEX_NAME;
     matches ← index_query index query_embedding top_k true;
     mret (retrieved_doc <$> matches))
    (fun e => raise e).

(** The retrieve stage as the orchestrator hands it to the generator. *)
Definition retrieve_passages (query_embedding : list float) (top_k : nat)
  : M world (list doc) :=
  retrieved_documents ← retrieve_documents query_embedding top_k;
  mret (passage_of <$> retrieved_documents).

(** [generate_rag_answer] over the three stages of [rag_system.py]. *)
Definition rag_system (encoding_for_model : str -> str -> list nat)
    (encode_error : str -> str -> option exn)
    (chat_completions_create : chat_request -> M world chat_completion)
  : str -> option (list str) -> M world answer_result :=
  generate_rag_answer world (list float) encoding_for_model encode_error
    chat_completions_create get_embedding retrieve_passages.

End Retrieval.

(** ** The [/ask] endpoint of [api/index.py] *)

(** The dict of line 131 of [rag_system.py], as the endpoint tests it. *)
Definition source_dict (c : citation) : gmap string str :=
  {[ "title" := title c; "url" := url c ]}.

Module api_index.

Record QueryRequest := { question : str }.

(** A value of the JSON content of a response. *)
Inductive json :=
| JValue (v : pyval)
| JLinks (l : list (gmap string str))
| JStr (s : str).

Record JSONResponse := {
  status_code : nat;
  content : gmap string json
}.

Definition NO_ANSWER : str :=
  lit "I'm sorry, I cannot answer this question at this time.".

(** The body of the loop of lines 25-29. *)
Definition loop_body (links_list : list (gmap string str))
    (source : gmap string str) : list (gmap string str) :=
  match source !! "url", source !! "title" with
  | Some u, Some t => links_list ++ [ {[ "url" := u; "text" := t ]} ]
  | Some u, None => links_list ++ [ {[ "url" := u; "text" := u ]} ]
  | None, _ => links_list
  end.

Fixpoint for_source_in (sources : list (gmap string str))
    (links_list : list (gmap string str)) : list (gmap string str) :=
  match sources with
  | [] => links_list
  | source :: rest => for_source_in rest (loop_body links_list source)
  end.

(** Lines 22-29. *)
Definition answer_text (rag_output : answer_result) : pyval :=
  get rag_output "answer" (PStr NO_ANSWER).

Definition links_list (rag_output : answer_result) : list (gmap string str) :=
  match rag_output !! "sources" with
  | Some (PList l) => for_source_in (source_dict <$> l) []
  | _ => []
  end.

(** The stand-in of line 11, used when [rag_system] cannot be imported. *)
Definition import_fallback {world} (q : str) : M world answer_result :=
  mret (answer_dict (lit "Error loading RAG system") []).

Section Ask.

Variable world : Type.
(** [generate_rag_answer], called with the question alone. *)
Variable generate_rag_answer : str -> M world answer_result.

Definition query_knowledge_base (request : QueryRequest) : M world JSONResponse :=
  try_except
    (rag_output ← generate_rag_answer (question request);
     mret {| status_code := 200;
             content := {[ "answer" := JValue (answer_text rag_output);
                           "links" := JLinks (links_list rag_output) ]} |})
    (fun e => mret {| status_code := 500;
                      content := {[ "error" := JStr (lit "Internal server error") ]} |}).

End Ask.

End api_index.

(** ** [retriever.py] *)

Module retriever.

Definition INDEX_NAME : str := lit "tds-rag-index".
Definition EMBEDDING_MODEL : str := lit "text-embedding-3-small".

(** The module variables assigned by [initialize_retriever_pinecone]. *)
Record globals (client index_handle : Type) := Globals {
  pc_retriever : option client;
  pinecone_index_retriever : option index_handle;
  retriever_initialized : bool
}.
Arguments Globals {client index_handle} _ _ _.
Arguments pc_retriever {client index_handle} _.
Arguments pinecone_index_retriever {client index_handle} _.
Arguments retriever_initialized {client index_handle} _.

(** The dict appended at lines 97-104. *)
Definition relevant_chunk {float} (m : index_match float)
  : gmap string (field float) :=
  {[ "id" := FStr (match_id m);
     "score" := FFloat (match_score m);
     "text" := FStr (get (match_metadata m) "combined_text" []);
     "source" := FStr (get (match_metadata m) "source" (lit "unknown"));
     "title" := FStr (get (match_metadata m) "title" []);
     "topic_title" := FStr (get (match_metadata m) "topic_title" []) ]}.

Section Retriever.

(** The two environment variables read when the module is loaded, and the
    services: the constructor of the Pinecone client,
    [list_indexes().names()], [Index(name)], [query(...)], and the
    embedding endpoint. *)
Variable world : Type.
Variable float : Type.
Variable client : Type.
Variable index_handle : Type.
Variable PINECONE_API_KEY : option str.
Variable PINECONE_ENVIRONMENT : option str.
Variable Pinecone : str -> str -> M world client.
Variable list_indexes_names : client -> M world (list str).
Variable Index : client -> str -> M world index_handle.
Variable index_query :
  index_handle -> list float -> nat -> bool -> M world (list (index_match float)).
Variable embeddings_create : str -> str -> M world (list (list float)).

(** A computation over the module variables and the world. *)
Definition G (A : Type) : Type := M (globals client index_handle * world) A.

(** A call to a service. *)
Definition call {A} (m : M world A) : G A :=
  fun gw => let (o, w') := m gw.2 in (o, (gw.1, w')).

Definition read : G (globals client index_handle) :=
  fun gw => (Returns gw.1, gw).

Definition assign (f : globals client index_handle -> globals client index_handle)
  : G unit :=
  fun gw => (Returns (), (f gw.1, gw.2)).

Definition set_pc_retriever (c : client) : G unit :=
  assign (fun g => Globals (Some c) (pinecone_index_retriever g)
                     (retriever_initialized g)).

Definition set_pinecone_index_retriever (i : index_handle) : G unit :=
  assign (fun g => Globals (pc_retriever g) (Some i) (retriever_initialized g)).

Definition set_retriever_initialized (b : bool) : G unit :=
  assign (fun g => Globals (pc_retriever g) (pinecone_index_retriever g) b).

Definition initialize_retriever_pinecone : G bool :=
  g ← read;
  if retriever_initialized g then mret true
  else if negb (truthy PINECONE_API_KEY) || negb (truthy PINECONE_ENVIRONMENT)
  then mret false
  else
    try_except
      (pc ← call (Pinecone (default [] PINECONE_API_KEY)
                    (default [] PINECONE_ENVIRONMENT));
       _ ← set_pc_retriever pc;
       names ← call (list_indexes_names pc);
       if bool_decide (INDEX_NAME ∉ names) then mret false
       else
         index ← call (Index pc INDEX_NAME);
         _ ← set_pinecone_index_retriever index;
         _ ← set_retriever_initialized true;
         mret true)
      (fun e => _ ← set_retriever_initialized false; mret false).

(** [retriever_initialized or initialize_retriever_pinecone()]: the second
    is evaluated only when the first is false. *)
Definition ensure_initialized : G bool :=
  g ← read;
  if retriever_initialized g then mret true else initialize_retriever_pinecone.

(** [pinecone_index_retriever.query]: an attribute of [None] when the index
    was never assigned. *)
Definition index_attribute (i : option index_handle) : outcome index_handle :=
  match i with
  | Some index => Returns index
  | None => Raises AttributeError
  end.

Definition get_query_embedding (text : str) : G (option (list float)) :=
  ready ← ensure_initialized;
  if negb ready then mret None
  else
    try_except
      (response_data ← call (embeddings_create text EMBEDDING_MODEL);
       embedding ← lift (subscript response_data 0);
       mret (Some embedding))
      (fun e => mret None).

Definition retrieve_relevant_chunks (query : str) (top_k : nat)
  : G (list (gmap string (field float))) :=
  ready ← ensure_initialized;
  if negb ready then mret []
  else
    query_embedding ← get_query_embedding query;
    match query_embedding with
    | None => mret []
    | Some v =>
        try_except
          (g ← read;
           index ← lift (index_attribute (pinecone_index_retriever g));
           matches ← call (index_query index v top_k true);
           mret (relevant_chunk <$> matches))
          (fun e => mret [])
    end.

(** What [retriever_initialized] promises. *)
Definition ready_state (g : globals client index_handle) : Prop :=
  retriever_initialized g = true -> is_Some (pinecone_index_retriever g).

End Retriever.

End retriever.

(** ** Stand-ins for the services of [retriever.py] *)

(** Scores and embedding coordinates are natural numbers here. *)
Definition unreachable_pinecone : str -> str -> M (list call) unit :=
  fun _ _ w => (Raises (ServiceError (lit "unreachable")), w).

Definition no_index_names : unit -> M (list call) (list str) :=
  fun _ w => (Returns [], w).

Definition any_index : unit -> str -> M (list call) unit :=
  fun _ _ w => (Returns (), w).

Definition stub_embeddings (o : outcome (list (list nat)))
  : str -> str -> M (list call) (list (list nat)) :=
  fun text _ w => (o, w ++ [EmbedCall text]).

Definition stub_index_query (o : outcome (list (index_match nat)))
  : unit -> list nat -> nat -> bool -> M (list call) (list (index_match nat)) :=
  fun _ _ top_k _ w => (o, w ++ [QueryCall top_k]).

(** A match whose metadata has a text and a title, and nothing else. *)
Definition sample_match : index_match nat :=
  {| match_id := lit "topic-1";
     match_score := 1;
     match_metadata := {[ "combined_text" := lit "Use OLS.";
                          "title" := lit "Regression" ]} |}.

(** The module variables of an initialized retriever. *)
Definition initialized_globals : retriever.globals unit unit :=
  retriever.Globals (Some ()) (Some ()) true.

(** * Properties of the context packer *)

Section PackerProperties.

Variable num_tokens : str -> nat.
Variable budget : nat.

Lemma block_tokens_nil : block_tokens num_tokens [] = 0.
Proof. reflexivity. Qed.

Lemma block_tokens_cons d docs :
  block_tokens num_tokens (d :: docs)
  = num_tokens (doc_for_llm d) + block_tokens num_tokens docs.
Proof. reflexivity. Qed.

Lemma block_tokens_parts docs :
  block_tokens num_tokens docs = sum_list (num_tokens <$> (doc_for_llm <$> docs)).
Proof. unfold block_tokens. by rewrite list_fmap_compose. Qed.

(** The loop admits a prefix of the passages: the first [k], each of which
    passed the test of line 128, and stops at passage [k] if there is one. *)
Lemma for_doc_in_prefix docs : forall st, exists k,
  k <= length docs
  /\ context_str_parts (for_doc_in num_tokens budget docs st)
     = context_str_parts st ++ (doc_for_llm <$> take k docs)
  /\ sources (for_doc_in num_tokens budget docs st)
     = sources st ++ (citation_of <$> take k docs)
  /\ current_tokens (for_doc_in num_tokens budget docs st)
     = current_tokens st + block_tokens num_tokens (take k docs)
  /\ (forall i d, i < k -> docs !! i = Some d ->
        current_tokens st + block_tokens num_tokens (take i docs)
        + num_tokens (doc_for_llm d) < budget)
  /\ (forall d, docs !! k = Some d ->
        budget <= current_tokens st + block_tokens num_tokens (take k docs)
                  + num_tokens (doc_for_llm d)).
Proof.
  induction docs as [|d rest IH]; intros st.
  - exists 0. cbn. rewrite !app_nil_r. split_and!; try done; lia.
  - cbn [for_doc_in]. unfold loop_body.
    destruct (Nat.ltb_spec (current_tokens st + num_tokens (doc_for_llm d)) budget)
      as [Hfit|Hfull].
    + destruct (IH {| context_str_parts := context_str_parts st ++ [doc_for_llm d];
                      sources := sources st ++ [citation_of d];
                      current_tokens := current_tokens st + num_tokens (doc_for_llm d) |})
        as (k & Hk & Hparts & Hsrc & Htok & Hbefore & Hat).
      cbn [context_str_parts sources current_tokens] in *.
      exists (S k). cbn [take length fmap list_fmap].
      rewrite Hparts, Hsrc, Htok, block_tokens_cons, <- !app_assoc.
      split_and!; try done; try lia.
      * intros [|i] d' Hi Hd'; cbn in Hd'.
        -- inversion Hd'; subst. cbn [take]. rewrite block_tokens_nil. lia.
        -- cbn [take]. rewrite block_tokens_cons.
           specialize (Hbefore i d' ltac:(lia) Hd'). lia.
      * intros d' Hd'. cbn in Hd'. specialize (Hat d' Hd'). lia.
    + exists 0. cbn [take length fmap list_fmap]. rewrite !app_nil_r.
      split_and!; try done; try lia.
      intros d' Hd'. inversion Hd'; subst. rewrite block_tokens_nil. lia.
Qed.

(** The running total stays below the budget once a passage is admitted. *)
Lemma for_doc_in_budget docs : forall st,
  current_tokens (for_doc_in num_tokens budget docs st) < budget
  \/ for_doc_in num_tokens budget docs st = st.
Proof.
  induction docs as [|d rest IH]; intros st; [by right|].
  cbn [for_doc_in]. unfold loop_body.
  destruct (Nat.ltb_spec (current_tokens st + num_tokens (doc_for_llm d)) budget)
    as [Hfit|Hfull]; [|by right].
  left. destruct (IH {| context_str_parts := context_str_parts st ++ [doc_for_llm d];
                        sources := sources st ++ [citation_of d];
                        current_tokens := current_tokens st + num_tokens (doc_for_llm d) |})
    as [Hlt|Heq]; [done|]. by rewrite Heq.
Qed.

Lemma pack_prefix reserved query docs : exists k,
  k <= length docs
  /\ context_str_parts (pack num_tokens budget reserved query docs)
     = doc_for_llm <$> take k docs
  /\ sources (pack num_tokens budget reserved query docs)
     = citation_of <$> take k docs
  /\ current_tokens (pack num_tokens budget reserved query docs)
     = base_tokens num_tokens reserved query + block_tokens num_tokens (take k docs)
  /\ (forall i d, i < k -> docs !! i = Some d ->
        base_tokens num_tokens reserved query + block_tokens num_tokens (take i docs)
        + num_tokens (doc_for_llm d) < budget)
  /\ (forall d, docs !! k = Some d ->
        budget <= base_tokens num_tokens reserved query
                  + block_tokens num_tokens (take k docs)
                  + num_tokens (doc_for_llm d)).
Proof. unfold pack. apply for_doc_in_prefix. Qed.

End PackerProperties.

(** C1 (amended): for every tokenizer, budget, reserve, query and passage
    list, the running total of the packer is the base plus the tokens of the
    admitted blocks, each block counted on its own; it is below the budget
    when the base is, or when a block was admitted; when the base is not
    below the budget nothing is admitted. *)
Theorem P1_running_total_below_budget
    (num_tokens : str -> nat) (budget reserved : nat) (query : str)
    (docs : list doc) :
  let st := pack num_tokens budget reserved query docs in
  let base := base_tokens num_tokens reserved query in
  current_tokens st = base + sum_list (num_tokens <$> context_str_parts st)
  /\ (base < budget \/ context_str_parts st <> [] -> current_tokens st < budget)
  /\ (budget <= base -> context_str_parts st = [] /\ sources st = []).
Proof.
  intros st base. subst st base.
  destruct (pack_prefix num_tokens budget reserved query docs)
    as (k & _ & Hparts & Hsrc & Htok & Hbefore & _).
  split_and!.
  - by rewrite Htok, Hparts, block_tokens_parts.
  - intros Hor. unfold pack in *.
    destruct (for_doc_in_budget num_tokens budget docs
                {| context_str_parts := []; sources := [];
                   current_tokens := base_tokens num_tokens reserved query |})
      as [Hlt|Heq]; [done|].
    rewrite Heq in *. cbn in *. by destruct Hor as [Hbase|Hne].
  - intros Hfull. destruct k as [|k]; [by rewrite Hparts, Hsrc|].
    destruct (docs !! 0) as [d|] eqn:Hd.
    + specialize (Hbefore 0 d ltac:(lia) Hd). lia.
    + destruct docs; [|done]. by rewrite Hparts, Hsrc.
Qed.

(** Whatever the tokenizer, P1 fails as soon as the base reaches the
    budget. *)
Lemma budget_respected_needs_room
    (num_tokens : str -> nat) (budget reserved : nat) (query : str)
    (docs : list doc) :
  budget <= base_tokens num_tokens reserved query ->
  ~ budget_respected num_tokens budget reserved query docs.
Proof. unfold budget_respected. lia. Qed.

(** The second input below: both passages are admitted, the running total
    is 4095, and the joined context has 3196 tokens, one more than the two
    blocks. *)
Example two_long_passages_packed :
  let st := pack text_only_count MAX_TOKENS_FOR_LLM_VISION RESERVED_QUERY_TOKENS
              (filler 76) two_long_passages in
  length (sources st) = 2
  /\ Nat.eqb (current_tokens st) 4095 = true
  /\ Nat.eqb (base_tokens text_only_count RESERVED_QUERY_TOKENS (filler 76)) 900 = true
  /\ Nat.eqb (text_only_count (join nl (context_str_parts st))) 3196 = true.
Proof. vm_compute. done. Qed.

(** C1, as stated, fails.  With no passage and a query of 4000 characters the
    base alone is 4824, above the budget of 4096, and the context is empty.
    With a base of 900 and two blocks of 1597 and 1598 tokens both blocks
    are admitted (running total 4095), but the joined context has one more
    token, the separator, and the sum is 4096. *)
Lemma P1_as_stated_fails :
  ~ budget_respected text_only_count MAX_TOKENS_FOR_LLM_VISION
      RESERVED_QUERY_TOKENS (filler 4000) []
  /\ ~ budget_respected text_only_count MAX_TOKENS_FOR_LLM_VISION
        RESERVED_QUERY_TOKENS (filler 76) two_long_passages.
Proof.
  split; intros H; apply Nat.ltb_lt in H; vm_compute in H; discriminate.
Qed.


(** C2: if the passage at rank [i] does not pass the test of line 128 with
    the tokens of the passages before it, the packer has admitted exactly
    the first [k] passages for some [k <= i]: the passage at rank [i] and
    every passage after it is left out, whatever its size. *)
Theorem P3_greedy_prefix
    (num_tokens : str -> nat) (budget reserved : nat) (query : str)
    (docs : list doc) (i : nat) (d : doc) :
  docs !! i = Some d ->
  ~ (base_tokens num_tokens reserved query
     + block_tokens num_tokens (take i docs)
     + num_tokens (doc_for_llm d) < budget) ->
  let st := pack num_tokens budget reserved query docs in
  exists k, k <= i
    /\ context_str_parts st = doc_for_llm <$> take k docs
    /\ sources st = citation_of <$> take k docs.
Proof.
  intros Hd Hreject st. subst st.
  destruct (pack_prefix num_tokens budget reserved query docs)
    as (k & _ & Hparts & Hsrc & _ & Hbefore & _).
  exists k. split_and!; [|done..].
  destruct (decide (k <= i)) as [|Hlt]; [done|].
  destruct Hreject. apply Hbefore; [lia|done].
Qed.

(** The passages of 100, 100, 5000 and 40 tokens with a base of 850 and a
    budget of 1200: the third is rejected, and the fourth, which would fit,
    is not admitted. *)
Lemma P3_greedy_prefix_witness :
  ranked_passages !! 2 = Some (passage [] [] (filler 4964))
  /\ ~ (base_tokens text_only_count 500 (filler 26)
        + block_tokens text_only_count (take 2 ranked_passages)
        + text_only_count (doc_for_llm (passage [] [] (filler 4964))) < 1200)
  /\ exists k, k <= 2
       /\ context_str_parts (pack text_only_count 1200 500 (filler 26) ranked_passages)
          = doc_for_llm <$> take k ranked_passages
       /\ sources (pack text_only_count 1200 500 (filler 26) ranked_passages)
          = citation_of <$> take k ranked_passages.
Proof.
  assert (H1 : ranked_passages !! 2 = Some (passage [] [] (filler 4964)))
    by reflexivity.
  assert (H2 : ~ (base_tokens text_only_count 500 (filler 26)
        + block_tokens text_only_count (take 2 ranked_passages)
        + text_only_count (doc_for_llm (passage [] [] (filler 4964))) < 1200)).
  { intros H. apply Nat.ltb_lt in H. vm_compute in H. discriminate. }
  split; [exact H1|]. split; [exact H2|].
  exact (P3_greedy_prefix text_only_count 1200 500 (filler 26)
           ranked_passages 2 _ H1 H2).
Defined.

(** The example of the specification, continued by a short fourth passage:
    two citations, and a running total of 1050. *)
Example ranked_passages_packed :
  let st := pack text_only_count 1200 500 (filler 26) ranked_passages in
  length (sources st) = 2 /\ current_tokens st = 1050
  /\ context_str_parts st = doc_for_llm <$> take 2 ranked_passages.
Proof. vm_compute. done. Qed.

(** * Properties of the calls *)

Section MonadProperties.

Context {world : Type}.

Lemma try_except_returns {A} (body : M world A) handler w a w' :
  body w = (Returns a, w') -> try_except body handler w = (Returns a, w').
Proof. unfold try_except. by intros ->. Qed.

Lemma try_except_raises {A} (body : M world A) handler w e w' :
  body w = (Raises e, w') -> try_except body handler w = handler e w'.
Proof. unfold try_except. by intros ->. Qed.

Lemma bind_returns {A B} (m : M world A) (f : A -> M world B) w a w' :
  m w = (Returns a, w') -> (m ≫= f) w = f a w'.
Proof. unfold mbind, M_bind. by intros ->. Qed.

Lemma bind_raises {A B} (m : M world A) (f : A -> M world B) w e w' :
  m w = (Raises e, w') -> (m ≫= f) w = (Raises e, w').
Proof. unfold mbind, M_bind. by intros ->. Qed.

End MonadProperties.

(** * The loop with the calls to the tokenizer *)

Section PackerRunProperties.

Variable count : str -> outcome nat.
Variable total : str -> nat.
Variable budget : nat.

(** [total] gives the counts that [count] returns. *)
Hypothesis count_total : forall s n, count s = Returns n -> total s = n.

Lemma loop_body_run_agrees st d fl :
  loop_body_run count budget st d = Returns fl ->
  fl = loop_body total budget st d.
Proof.
  unfold loop_body_run. destruct (count (doc_for_llm d)) as [n|e] eqn:Hc; [|done].
  intros [= <-]. unfold loop_body. by rewrite (count_total _ _ Hc).
Qed.

Lemma for_doc_in_run_agrees docs : forall st st',
  for_doc_in_run count budget docs st = Returns st' ->
  st' = for_doc_in total budget docs st.
Proof.
  induction docs as [|d rest IH]; intros st st'; cbn [for_doc_in_run for_doc_in].
  - by intros [= <-].
  - destruct (loop_body_run count budget st d) as [fl|e] eqn:Hbody; [|done].
    apply loop_body_run_agrees in Hbody. rewrite <- Hbody.
    destruct fl as [st1|st1]; [apply IH|by intros [= <-]].
Qed.

Lemma pack_run_agrees reserved query docs st :
  pack_run count budget reserved query docs = Returns st ->
  st = pack total budget reserved query docs.
Proof.
  unfold pack_run, pack, base_tokens.
  destruct (count (system_prompt_template ++ query)) as [n|e] eqn:Hc; [|done].
  rewrite (count_total _ _ Hc). apply for_doc_in_run_agrees.
Qed.

End PackerRunProperties.

(** When the tokenizer accepts every text it is asked about, the loop ends
    in the state of [pack]. *)
Lemma pack_run_accepts (count : str -> outcome nat) (total : str -> nat)
    (budget reserved : nat) (query : str) (docs : list doc) :
  (forall s, count s = Returns (total s)) ->
  pack_run count budget reserved query docs
  = Returns (pack total budget reserved query docs).
Proof.
  intros Hall. unfold pack_run, pack, base_tokens. rewrite Hall.
  generalize {| context_str_parts := []; sources := [];
                current_tokens := total (system_prompt_template ++ query) + reserved |}.
  induction docs as [|d rest IH]; intros st; [done|].
  cbn [for_doc_in_run for_doc_in]. unfold loop_body_run. rewrite Hall.
  unfold loop_body. destruct (_ <? _); [apply IH|done].
Qed.

(** * Properties of the calls to the services *)

Section PipelineProperties.

Variable world : Type.
Variable encoding_for_model : str -> str -> list nat.
Variable encode_error : str -> str -> option exn.
Variable chat_completions_create : chat_request -> M world chat_completion.

Local Abbreviation generate :=
  (generate_llm_response world encoding_for_model encode_error
     chat_completions_create).
Local Abbreviation request_of := (chat_request_of encoding_for_model).
Local Abbreviation packed := (pack_context encoding_for_model).
Local Abbreviation packed_run :=
  (pack_context_run encoding_for_model encode_error).

Lemma num_tokens_from_string_returns text model_name n :
  num_tokens_from_string encoding_for_model encode_error text model_name
  = Returns n ->
  length (encoding_for_model model_name text) = n.
Proof.
  unfold num_tokens_from_string.
  destruct (encode_error model_name text); [done|]. by intros [= <-].
Qed.

(** When the loop ends, it ends in the state of [pack_context]. *)
Lemma pack_context_run_agrees query docs imgs st :
  packed_run query docs imgs = Returns st -> st = packed query docs imgs.
Proof.
  unfold pack_context_run, pack_context. apply pack_run_agrees.
  intros s n. apply num_tokens_from_string_returns.
Qed.

Lemma pack_context_run_accepts query docs imgs :
  (forall s, encode_error (llm_model_to_use imgs) s = None) ->
  packed_run query docs imgs = Returns (packed query docs imgs).
Proof.
  intros Hall. unfold pack_context_run, pack_context. apply pack_run_accepts.
  intros s. unfold num_tokens_from_string. by rewrite Hall.
Qed.

Lemma chat_request_from_packed query docs imgs :
  chat_request_from (packed query docs imgs) query imgs = request_of query docs imgs.
Proof. reflexivity. Qed.

(** [generate_llm_response] raises what the tokenizer raises, before any
    call to the chat endpoint; otherwise it makes one call to the chat
    endpoint and returns, and what it returns is read off the outcome of
    that call. *)
Lemma generate_llm_response_run query docs imgs w :
  generate query docs imgs w
  = match packed_run query docs imgs with
    | Raises e => (Raises e, w)
    | Returns _ =>
        (Returns (completion_result (sources (packed query docs imgs))
                    (chat_completions_create (request_of query docs imgs) w).1),
         (chat_completions_create (request_of query docs imgs) w).2)
    end.
Proof.
  unfold generate_llm_response, mbind, M_bind at 1. unfold lift at 1.
  destruct (packed_run query docs imgs) as [st|e] eqn:Hrun; [|done].
  apply pack_context_run_agrees in Hrun. subst st.
  rewrite chat_request_from_packed.
  unfold try_except, mbind, M_bind, lift, mret, M_ret.
  destruct (chat_completions_create _ w) as [[response|e] w']; cbn; [|done].
  unfold subscript. destruct (choices response) as [|[c|] rest]; by cbn.
Qed.

Lemma generate_llm_response_raises query docs imgs w e :
  packed_run query docs imgs = Raises e ->
  generate query docs imgs w = (Raises e, w).
Proof. intros Hrun. by rewrite generate_llm_response_run, Hrun. Qed.

Lemma generate_llm_response_succeeds query docs imgs st w response w' c rest :
  packed_run query docs imgs = Returns st ->
  chat_completions_create (request_of query docs imgs) w = (Returns response, w') ->
  choices response = Some c :: rest ->
  generate query docs imgs w
  = (Returns (answer_dict (strip c) (sources (packed query docs imgs))), w').
Proof.
  intros Hrun Hcall Hchoices. rewrite generate_llm_response_run, Hrun, Hcall. cbn.
  by rewrite Hchoices.
Qed.

Lemma generate_llm_response_falls_back query docs imgs st w o w' e :
  packed_run query docs imgs = Returns st ->
  chat_completions_create (request_of query docs imgs) w = (o, w') ->
  generation_raises o e ->
  generate query docs imgs w = (Returns (answer_dict LLM_APOLOGY []), w').
Proof.
  intros Hrun Hcall Hraises. rewrite generate_llm_response_run, Hrun, Hcall. cbn.
  destruct Hraises as [e|response Hnone|response rest Hnone]; cbn;
    [done|by rewrite Hnone..].
Qed.

End PipelineProperties.

(** C3 (amended): when the packer finishes, its citations are those of
    the admitted passages, a prefix of the list of passages, one per block
    of the context and in the same order: citation [i] has the title and
    the url of admitted passage [i].  These citations are the sources that
    [generate_llm_response] returns with the answer of the model; when the
    call to the chat endpoint fails it returns no source at all. *)
Theorem P2_citations_correspond
    (world : Type) (encoding_for_model : str -> str -> list nat)
    (encode_error : str -> str -> option exn)
    (chat_completions_create : chat_request -> M world chat_completion)
    (query : str) (docs : list doc) (imgs : option (list str)) (st : locals) :
  pack_context_run encoding_for_model encode_error query docs imgs = Returns st ->
  exists admitted : list doc,
    admitted `prefix_of` docs
    /\ context_str_parts st = doc_for_llm <$> admitted
    /\ sources st = citation_of <$> admitted
    /\ length (sources st) = length admitted
    /\ (forall i d, admitted !! i = Some d ->
          sources st !! i = Some {| title := doc_title d; url := doc_url d |})
    /\ (forall w response w' c rest,
          chat_completions_create (chat_request_from st query imgs) w
          = (Returns response, w') ->
          choices response = Some c :: rest ->
          generate_llm_response world encoding_for_model encode_error
            chat_completions_create query docs imgs w
          = (Returns (answer_dict (strip c) (sources st)), w'))
    /\ (forall w o w' e,
          chat_completions_create (chat_request_from st query imgs) w = (o, w') ->
          generation_raises o e ->
          generate_llm_response world encoding_for_model encode_error
            chat_completions_create query docs imgs w
          = (Returns (answer_dict LLM_APOLOGY []), w')).
Proof.
  intros Hrun.
  pose proof (pack_context_run_agrees _ _ _ _ _ _ Hrun) as Hst.
  assert (Hreq : chat_request_from st query imgs
                 = chat_request_of encoding_for_model query docs imgs)
    by (by rewrite Hst).
  rewrite Hreq. rewrite Hst. unfold pack_context at 1 2 3 4.
  destruct (pack_prefix
              (fun s => length (encoding_for_model (llm_model_to_use imgs) s))
              (max_tokens_for_llm_effective imgs) RESERVED_QUERY_TOKENS query docs)
    as (k & _ & Hparts & Hsrc & _).
  exists (take k docs). split_and!.
  - apply prefix_take.
  - done.
  - done.
  - by rewrite Hsrc, length_fmap.
  - intros i d Hd. by rewrite Hsrc, list_lookup_fmap, Hd.
  - intros w response w' c rest Hcall Hchoices.
    by apply (generate_llm_response_succeeds world encoding_for_model encode_error
                chat_completions_create query docs imgs st w response w' c rest).
  - intros w o w' e Hcall Hraises.
    by apply (generate_llm_response_falls_back world encoding_for_model
                encode_error chat_completions_create query docs imgs st w o w' e).
Qed.

(** Two of the four passages are admitted, cited, and returned with the
    answer. *)
Lemma P2_citations_correspond_witness :
  pack_context_run char_encoding accepts_all (lit "What is OLS regression?")
    ranked_passages None
  = Returns (pack_context char_encoding (lit "What is OLS regression?")
               ranked_passages None)
  /\ exists admitted : list doc,
       admitted `prefix_of` ranked_passages
       /\ sources (pack_context char_encoding (lit "What is OLS regression?")
                     ranked_passages None)
          = citation_of <$> admitted.
Proof.
  assert (H : pack_context_run char_encoding accepts_all
                (lit "What is OLS regression?") ranked_passages None
              = Returns (pack_context char_encoding (lit "What is OLS regression?")
                           ranked_passages None)).
  { by apply pack_context_run_accepts. }
  split; [exact H|].
  destruct (P2_citations_correspond (list call) char_encoding accepts_all
              (stub_chat (Returns plain_completion))
              (lit "What is OLS regression?") ranked_passages None _ H)
    as (admitted & Hpre & _ & Hsrc & _).
  exists admitted. split; [exact Hpre|exact Hsrc].
Defined.

(** C3, as stated, fails for the value returned: two passages are admitted
    into the context that is sent, the chat endpoint raises, and
    [generate_llm_response] returns an empty list of sources. *)
Lemma P2_as_stated_fails :
  length (context_str_parts
            (pack_context char_encoding (lit "What is OLS regression?")
               ranked_passages None)) = 2
  /\ generate_llm_response (list call) char_encoding accepts_all
       (stub_chat (Raises (ServiceError (lit "overloaded"))))
       (lit "What is OLS regression?") ranked_passages None []
     = (Returns (answer_dict LLM_APOLOGY []),
        [ ChatCall (chat_request_of char_encoding (lit "What is OLS regression?")
                      ranked_passages None) ])
  /\ answer_dict LLM_APOLOGY [] !! "sources" = Some (PList []).
Proof. split_and!; vm_compute; reflexivity. Qed.

(** * Properties of the orchestrator *)

Section OrchestratorProperties.

Variable world : Type.
Variable vector : Type.
Variable get_embedding : str -> M world vector.
Variable retrieve_documents : vector -> nat -> M world (list doc).
Variable stage : str -> list doc -> option (list str) -> M world answer_result.

Local Abbreviation run :=
  (orchestrate world vector get_embedding retrieve_documents stage).
Local Abbreviation fallback := (answer_dict RAG_APOLOGY []).

(** The orchestrator, stage by stage. *)
Lemma orchestrate_run query imgs w :
  run query imgs w
  = match get_embedding query w with
    | (Raises _, w1) => (Returns fallback, w1)
    | (Returns v, w1) =>
        match retrieve_documents v 7 w1 with
        | (Raises _, w2) => (Returns fallback, w2)
        | (Returns docs, w2) =>
            match stage query docs imgs w2 with
            | (Raises _, w3) => (Returns fallback, w3)
            | (Returns r, w3) => (Returns r, w3)
            end
        end
    end.
Proof.
  unfold orchestrate, try_except, mbind, M_bind, mret, M_ret.
  destruct (get_embedding query w) as [[v|e] w1]; [|done].
  destruct (retrieve_documents v 7 w1) as [[docs|e] w2]; [|done].
  by destruct (stage query docs imgs w2) as [[r|e] w3].
Qed.

Lemma orchestrate_total query imgs w :
  exists r w', run query imgs w = (Returns r, w').
Proof.
  rewrite orchestrate_run.
  destruct (get_embedding query w) as [[v|e] w1]; [|by eauto].
  destruct (retrieve_documents v 7 w1) as [[docs|e] w2]; [|by eauto].
  destruct (stage query docs imgs w2) as [[r|e] w3]; by eauto.
Qed.

Lemma orchestrate_catches query imgs w e w' :
  stage_raises world vector get_embedding retrieve_documents stage
    query imgs w e w' ->
  run query imgs w = (Returns fallback, w').
Proof.
  intros Hraises. rewrite orchestrate_run.
  destruct Hraises as [e w1 He|v w1 e w2 He Hr|v w1 docs w2 e w3 He Hr Hg].
  - by rewrite He.
  - by rewrite He, Hr.
  - by rewrite He, Hr, Hg.
Qed.

End OrchestratorProperties.

Lemma LLM_APOLOGY_nonempty : LLM_APOLOGY <> [].
Proof. discriminate. Qed.

Lemma RAG_APOLOGY_nonempty : RAG_APOLOGY <> [].
Proof. discriminate. Qed.

Lemma answer_dict_answer a s : answer_dict a s !! "answer" = Some (PStr a).
Proof. unfold answer_dict. by rewrite lookup_insert_eq. Qed.

Lemma answer_dict_sources a s : answer_dict a s !! "sources" = Some (PList s).
Proof.
  unfold answer_dict. rewrite lookup_insert_ne by done.
  by rewrite lookup_singleton_eq.
Qed.

Lemma completion_result_sources srcs o : sources_present (completion_result srcs o).
Proof.
  unfold sources_present, completion_result.
  destruct o as [response|e]; [|eexists; apply answer_dict_sources].
  destruct (choices response) as [|[c|] rest]; eexists; apply answer_dict_sources.
Qed.

(** [generate_rag_answer], stage by stage. *)
Lemma generate_rag_answer_run
    (world vector : Type) (encoding_for_model : str -> str -> list nat)
    (encode_error : str -> str -> option exn)
    (chat_completions_create : chat_request -> M world chat_completion)
    (get_embedding : str -> M world vector)
    (retrieve_documents : vector -> nat -> M world (list doc))
    query imgs w :
  generate_rag_answer world vector encoding_for_model encode_error
    chat_completions_create get_embedding retrieve_documents query imgs w
  = match get_embedding query w with
    | (Raises _, w1) => (Returns (answer_dict RAG_APOLOGY []), w1)
    | (Returns v, w1) =>
        match retrieve_documents v 7 w1 with
        | (Raises _, w2) => (Returns (answer_dict RAG_APOLOGY []), w2)
        | (Returns docs, w2) =>
            match pack_context_run encoding_for_model encode_error query docs imgs with
            | Raises _ => (Returns (answer_dict RAG_APOLOGY []), w2)
            | Returns _ =>
                (Returns (completion_result
                            (sources (pack_context encoding_for_model query docs imgs))
                            (chat_completions_create
                               (chat_request_of encoding_for_model query docs imgs)
                               w2).1),
                 (chat_completions_create
                    (chat_request_of encoding_for_model query docs imgs) w2).2)
            end
        end
    end.
Proof.
  unfold generate_rag_answer. rewrite orchestrate_run.
  destruct (get_embedding query w) as [[v|e] w1]; [|done].
  destruct (retrieve_documents v 7 w1) as [[docs|e] w2]; [|done].
  rewrite generate_llm_response_run.
  by destruct (pack_context_run encoding_for_model encode_error query docs imgs).
Qed.

(** C4: the orchestrator always returns.  When an exception leaves the
    embed, the retrieve or the generate stage, whatever these stages are, it
    returns the apology of the RAG system with no sources.  With
    [generate_llm_response] as the generate stage: an exception of the
    tokenizer leaves the stage and gives the apology of the RAG system,
    with no call to the chat endpoint; an exception raised inside the [try]
    block, once the packer has finished, is turned into the apology of the
    generator with no sources, and the orchestrator returns that. *)
Theorem orchestrator_fallback
    (world vector : Type)
    (get_embedding : str -> M world vector)
    (retrieve_documents : vector -> nat -> M world (list doc))
    (query : str) (imgs : option (list str)) (w : world) :
  (forall stage, exists r w',
      orchestrate world vector get_embedding retrieve_documents stage query imgs w
      = (Returns r, w'))
  /\ (forall stage e w',
        stage_raises world vector get_embedding retrieve_documents stage
          query imgs w e w' ->
        orchestrate world vector get_embedding retrieve_documents stage query imgs w
        = (Returns (answer_dict RAG_APOLOGY []), w'))
  /\ (forall encoding_for_model encode_error chat_completions_create v w1 docs w2 e,
        get_embedding query w = (Returns v, w1) ->
        retrieve_documents v 7 w1 = (Returns docs, w2) ->
        pack_context_run encoding_for_model encode_error query docs imgs = Raises e ->
        stage_raises world vector get_embedding retrieve_documents
          (generate_llm_response world encoding_for_model encode_error
             chat_completions_create) query imgs w e w2
        /\ generate_rag_answer world vector encoding_for_model encode_error
             chat_completions_create get_embedding retrieve_documents query imgs w
           = (Returns (answer_dict RAG_APOLOGY []), w2))
  /\ (forall encoding_for_model encode_error chat_completions_create
             v w1 docs w2 st o w3 e,
        get_embedding query w = (Returns v, w1) ->
        retrieve_documents v 7 w1 = (Returns docs, w2) ->
        pack_context_run encoding_for_model encode_error query docs imgs
        = Returns st ->
        chat_completions_create (chat_request_from st query imgs) w2 = (o, w3) ->
        generation_raises o e ->
        generate_rag_answer world vector encoding_for_model encode_error
          chat_completions_create get_embedding retrieve_documents query imgs w
        = (Returns (answer_dict LLM_APOLOGY []), w3)).
Proof.
  split_and!.
  - intros stage. apply orchestrate_total.
  - intros stage e w'. apply orchestrate_catches.
  - intros enc err chat v w1 docs w2 e He Hr Hrun. split.
    + eapply generate_raises; [done..|].
      by apply generate_llm_response_raises.
    + by rewrite generate_rag_answer_run, He, Hr, Hrun.
  - intros enc err chat v w1 docs w2 st o w3 e He Hr Hrun Hc Hg.
    pose proof (pack_context_run_agrees _ _ _ _ _ _ Hrun) as ->.
    rewrite chat_request_from_packed in Hc.
    rewrite generate_rag_answer_run, He, Hr, Hrun, Hc. cbn.
    destruct Hg as [e|response Hnone|response rest Hnone]; cbn;
      [done|by rewrite Hnone..].
Qed.

(** * Properties of [strip] *)

Lemma lstrip_head s c t : lstrip s = c :: t -> isspace c = false.
Proof.
  induction s as [|x s IH]; [done|]. cbn.
  destruct (isspace x) eqn:Hx; [done|]. by intros [= <- _].
Qed.

Lemma lstrip_nil s : lstrip s = [] <-> Forall (fun c => isspace c = true) s.
Proof.
  induction s as [|x s IH]; [done|]. cbn.
  destruct (isspace x) eqn:Hx.
  - rewrite IH. split; [by constructor|by inversion 1].
  - split; [done|]. inversion 1; congruence.
Qed.

Lemma rstrip_nil s : rstrip s = [] <-> Forall (fun c => isspace c = true) s.
Proof.
  unfold rstrip. rewrite <- (Forall_reverse _ s), <- lstrip_nil.
  split; [|by intros ->].
  intros H. apply (f_equal reverse) in H. by rewrite reverse_involutive in H.
Qed.

(** [strip] gives the empty string exactly on white space. *)
Lemma strip_nil s : strip s = [] <-> Forall (fun c => isspace c = true) s.
Proof.
  unfold strip. rewrite rstrip_nil, <- (lstrip_nil s).
  destruct (lstrip s) as [|c t] eqn:Hs; [split; [done|constructor]|].
  split; [|done]. inversion 1 as [|? ? Hc _]; subst.
  apply lstrip_head in Hs. congruence.
Qed.

Lemma strip_nonempty s :
  strip s <> [] <-> exists c, c ∈ s /\ isspace c = false.
Proof.
  rewrite strip_nil. split.
  - intros H. apply not_Forall_Exists in H; [|apply _].
    apply Exists_exists in H as (c & Hin & Hc). cbn in Hc.
    exists c. split; [done|]. by destruct (isspace c).
  - intros (c & Hin & Hc) H. rewrite Forall_forall in H.
    specialize (H c Hin). congruence.
Qed.

(** * Properties of the results *)

Lemma completion_result_dict srcs o :
  exists a l, completion_result srcs o = answer_dict a l.
Proof.
  unfold completion_result. destruct o as [response|e]; [|by eauto].
  destruct (choices response) as [|[c|] rest]; by eauto.
Qed.

(** C6: every dict that [generate_llm_response] returns has a [sources]
    entry that is a list; the function returns such a dict, or raises what
    the tokenizer raised, and nothing else.  [generate_rag_answer] always
    returns, and the dict it returns has a [sources] entry that is a
    list. *)
Theorem P5_sources_present
    (world vector : Type) (encoding_for_model : str -> str -> list nat)
    (encode_error : str -> str -> option exn)
    (chat_completions_create : chat_request -> M world chat_completion)
    (get_embedding : str -> M world vector)
    (retrieve_documents : vector -> nat -> M world (list doc))
    (query : str) (imgs : option (list str)) (w : world) :
  (forall docs r w',
     generate_llm_response world encoding_for_model encode_error
       chat_completions_create query docs imgs w = (Returns r, w') ->
     sources_present r)
  /\ (forall docs,
        (exists r w',
           generate_llm_response world encoding_for_model encode_error
             chat_completions_create query docs imgs w = (Returns r, w')
           /\ sources_present r)
        \/ (exists e,
              pack_context_run encoding_for_model encode_error query docs imgs
              = Raises e
              /\ generate_llm_response world encoding_for_model encode_error
                   chat_completions_create query docs imgs w = (Raises e, w)))
  /\ (exists r w',
        generate_rag_answer world vector encoding_for_model encode_error
          chat_completions_create get_embedding retrieve_documents query imgs w
        = (Returns r, w')
        /\ sources_present r).
Proof.
  split_and!.
  - intros docs r w'. rewrite generate_llm_response_run.
    destruct (pack_context_run encoding_for_model encode_error query docs imgs);
      [|done].
    intros [= <- _]. apply completion_result_sources.
  - intros docs. rewrite generate_llm_response_run.
    destruct (pack_context_run encoding_for_model encode_error query docs imgs)
      as [st|e].
    + left. do 2 eexists. split; [done|]. apply completion_result_sources.
    + right. by exists e.
  - rewrite generate_rag_answer_run.
    destruct (get_embedding query w) as [[v|e] w1];
      [|do 2 eexists; split; [done|eexists; apply answer_dict_sources]].
    destruct (retrieve_documents v 7 w1) as [[docs|e] w2];
      [|do 2 eexists; split; [done|eexists; apply answer_dict_sources]].
    destruct (pack_context_run encoding_for_model encode_error query docs imgs);
      [|do 2 eexists; split; [done|eexists; apply answer_dict_sources]].
    do 2 eexists. split; [done|]. apply completion_result_sources.
Qed.

(** C5 (amended): the pipeline always returns a dict whose answer is a
    string.  On each failure path it is a fixed apology that is not empty:
    that of the RAG system when the embedding, the retrieval or the
    tokenizer raises, that of the generator when the chat call raises or
    carries no content.  On the success path it is the content of the first
    choice of the chat endpoint without the white space around it, and it
    is not empty exactly when that content has a character that is not
    white space. *)
Theorem P4_answer_apology_or_stripped_content
    (world vector : Type) (encoding_for_model : str -> str -> list nat)
    (encode_error : str -> str -> option exn)
    (chat_completions_create : chat_request -> M world chat_completion)
    (get_embedding : str -> M world vector)
    (retrieve_documents : vector -> nat -> M world (list doc))
    (query : str) (imgs : option (list str)) (w : world) :
  let result :=
    generate_rag_answer world vector encoding_for_model encode_error
      chat_completions_create get_embedding retrieve_documents query imgs w in
  (exists r w' a, result = (Returns r, w') /\ r !! "answer" = Some (PStr a))
  /\ RAG_APOLOGY <> [] /\ LLM_APOLOGY <> []
  /\ (forall e w1, get_embedding query w = (Raises e, w1) ->
        result = (Returns (answer_dict RAG_APOLOGY []), w1))
  /\ (forall v w1 e w2,
        get_embedding query w = (Returns v, w1) ->
        retrieve_documents v 7 w1 = (Raises e, w2) ->
        result = (Returns (answer_dict RAG_APOLOGY []), w2))
  /\ (forall v w1 docs w2 e,
        get_embedding query w = (Returns v, w1) ->
        retrieve_documents v 7 w1 = (Returns docs, w2) ->
        pack_context_run encoding_for_model encode_error query docs imgs = Raises e ->
        result = (Returns (answer_dict RAG_APOLOGY []), w2))
  /\ (forall v w1 docs w2 st o w3 e,
        get_embedding query w = (Returns v, w1) ->
        retrieve_documents v 7 w1 = (Returns docs, w2) ->
        pack_context_run encoding_for_model encode_error query docs imgs
        = Returns st ->
        chat_completions_create (chat_request_from st query imgs) w2 = (o, w3) ->
        generation_raises o e ->
        result = (Returns (answer_dict LLM_APOLOGY []), w3))
  /\ (forall v w1 docs w2 st response w3 c rest,
        get_embedding query w = (Returns v, w1) ->
        retrieve_documents v 7 w1 = (Returns docs, w2) ->
        pack_context_run encoding_for_model encode_error query docs imgs
        = Returns st ->
        chat_completions_create (chat_request_from st query imgs) w2
        = (Returns response, w3) ->
        choices response = Some c :: rest ->
        result = (Returns (answer_dict (strip c) (sources st)), w3)
        /\ (strip c <> [] <-> exists x, x ∈ c /\ isspace x = false)).
Proof.
  intros result. subst result. split_and!.
  - rewrite generate_rag_answer_run.
    destruct (get_embedding query w) as [[v|e] w1];
      [|eexists _, _, _; split; [done|apply answer_dict_answer]].
    destruct (retrieve_documents v 7 w1) as [[docs|e] w2];
      [|eexists _, _, _; split; [done|apply answer_dict_answer]].
    destruct (pack_context_run encoding_for_model encode_error query docs imgs);
      [|eexists _, _, _; split; [done|apply answer_dict_answer]].
    destruct (completion_result_dict
                (sources (pack_context encoding_for_model query docs imgs))
                (chat_completions_create
                   (chat_request_of encoding_for_model query docs imgs) w2).1)
      as (a' & l' & ->).
    eexists _, _, _. split; [done|apply answer_dict_answer].
  - apply RAG_APOLOGY_nonempty.
  - apply LLM_APOLOGY_nonempty.
  - intros e w1 He. by rewrite generate_rag_answer_run, He.
  - intros v w1 e w2 He Hr. by rewrite generate_rag_answer_run, He, Hr.
  - intros v w1 docs w2 e He Hr Hrun.
    by rewrite generate_rag_answer_run, He, Hr, Hrun.
  - intros v w1 docs w2 st o w3 e He Hr Hrun Hc Hg.
    pose proof (pack_context_run_agrees _ _ _ _ _ _ Hrun) as ->.
    rewrite chat_request_from_packed in Hc.
    rewrite generate_rag_answer_run, He, Hr, Hrun, Hc. cbn.
    destruct Hg as [e|response Hnone|response rest Hnone]; cbn;
      [done|by rewrite Hnone..].
  - intros v w1 docs w2 st response w3 c rest He Hr Hrun Hc Hch.
    pose proof (pack_context_run_agrees _ _ _ _ _ _ Hrun) as ->.
    rewrite chat_request_from_packed in Hc.
    rewrite generate_rag_answer_run, He, Hr, Hrun, Hc. cbn. rewrite Hch.
    split; [done|apply strip_nonempty].
Qed.

(** C5, as stated, fails: when the chat endpoint answers with one space the
    pipeline returns the empty string as its answer. *)
Lemma P4_as_stated_fails :
  stub_pipeline (Returns ()) (Returns []) (Returns blank_completion)
    (lit "What is OLS regression?") (Some []) []
  = (Returns (answer_dict [] []),
     [ EmbedCall (lit "What is OLS regression?"); QueryCall 7;
       ChatCall (chat_request_of char_encoding
                   (lit "What is OLS regression?") [] (Some [])) ])
  /\ ~ nonempty_answer (answer_dict [] []).
Proof.
  split; [vm_compute; reflexivity|].
  intros (a & Ha & Hne). rewrite answer_dict_answer in Ha. congruence.
Qed.

(** * Model, budget and the empty list of passages *)

Lemma models_differ : LLM_MODEL_VISION <> LLM_MODEL_TEXT_ONLY.
Proof. discriminate. Qed.

(** C7: the model of the request built by [generate_llm_response], which
    is also the model whose tokenizer counts the tokens, is the vision model
    exactly when the image list is a list that is not empty, and the
    text-only model exactly when the list is missing or empty.  When the
    tokenizer of that model accepts the texts, the chat endpoint is called
    once, with that request; when it raises, the function raises and the
    chat endpoint is not called. *)
Theorem model_selection
    (world : Type) (encoding_for_model : str -> str -> list nat)
    (encode_error : str -> str -> option exn)
    (chat_completions_create : chat_request -> M world chat_completion)
    (query : str) (docs : list doc) (imgs : option (list str)) :
  let request := chat_request_of encoding_for_model query docs imgs in
  (model request = LLM_MODEL_VISION <-> exists img rest, imgs = Some (img :: rest))
  /\ (model request = LLM_MODEL_TEXT_ONLY <-> imgs = None \/ imgs = Some [])
  /\ pack_context_run encoding_for_model encode_error query docs imgs
     = pack_run (fun s => num_tokens_from_string encoding_for_model encode_error
                            s (model request))
         MAX_TOKENS_FOR_LLM_VISION RESERVED_QUERY_TOKENS query docs
  /\ (forall st, pack_context_run encoding_for_model encode_error query docs imgs
                 = Returns st ->
        chat_request_from st query imgs = request
        /\ forall w,
             generate_llm_response world encoding_for_model encode_error
               chat_completions_create query docs imgs w
             = (Returns (completion_result (sources st)
                           (chat_completions_create request w).1),
                (chat_completions_create request w).2))
  /\ (forall e, pack_context_run encoding_for_model encode_error query docs imgs
                = Raises e ->
        forall w,
          generate_llm_response world encoding_for_model encode_error
            chat_completions_create query docs imgs w = (Raises e, w)).
Proof.
  intros request. subst request. split_and!.
  - cbn. unfold llm_model_to_use. destruct imgs as [[|img rest]|]; cbn.
    + split; [intros H; by destruct models_differ|by intros (? & ? & ?)].
    + split; [by eauto|done].
    + split; [intros H; by destruct models_differ|by intros (? & ? & ?)].
  - cbn. unfold llm_model_to_use. destruct imgs as [[|img rest]|]; cbn.
    + split; [by right|done].
    + split; [intros H; by destruct models_differ|by intros [|]].
    + split; [by left|done].
  - unfold pack_context_run, max_tokens_for_llm_effective.
    by destruct (truthy imgs).
  - intros st Hrun.
    pose proof (pack_context_run_agrees _ _ _ _ _ _ Hrun) as ->.
    split; [done|]. intros w. by rewrite generate_llm_response_run, Hrun.
  - intros e Hrun w. by apply generate_llm_response_raises.
Qed.

(** C9: the budget of the packing loop is 4096 for every image list, and
    the packer is the loop run with that budget, the reserve of 500 and the
    token counts of the model chosen for the image list. *)
Theorem effective_budget_constant
    (encoding_for_model : str -> str -> list nat)
    (query : str) (docs : list doc) (imgs : option (list str)) :
  max_tokens_for_llm_effective imgs = MAX_TOKENS_FOR_LLM_VISION
  /\ MAX_TOKENS_FOR_LLM_VISION = 4096
  /\ pack_context encoding_for_model query docs imgs
     = pack (fun s => length (encoding_for_model (llm_model_to_use imgs) s))
         4096 500 query docs
  /\ (forall imgs',
        (forall s, encoding_for_model (llm_model_to_use imgs') s
                   = encoding_for_model (llm_model_to_use imgs) s) ->
        pack_context encoding_for_model query docs imgs'
        = pack_context encoding_for_model query docs imgs).
Proof.
  assert (Hbudget : forall l, max_tokens_for_llm_effective l = MAX_TOKENS_FOR_LLM_VISION).
  { intros l. unfold max_tokens_for_llm_effective. by destruct (truthy l). }
  split_and!; [by rewrite Hbudget|done|unfold pack_context; by rewrite Hbudget|].
  intros imgs' Hsame. unfold pack_context. rewrite !Hbudget.
  unfold pack, base_tokens, num_tokens_from_string. rewrite Hsame.
  generalize {| context_str_parts := []; sources := [];
                current_tokens :=
                  length (encoding_for_model (llm_model_to_use imgs)
                            (system_prompt_template ++ query))
                  + RESERVED_QUERY_TOKENS |}.
  induction docs as [|d rest IH]; intros st; [done|].
  cbn [for_doc_in]. unfold loop_body. rewrite Hsame.
  destruct (_ <? _); [apply IH|done].
Qed.

(** C8 (amended): with no passage, and a query that the tokenizer
    accepts after the system prompt, the packer finishes with an empty list
    of blocks and of citations, the context is the empty string, and the
    chat endpoint is still called: with the system prompt alone as the
    system message and the query (and the images, if any) as the user
    message.  The result is read off that call, with no sources.  Through
    the orchestrator, when the retrieval returns no passage the same call
    is made. *)
Theorem empty_passages_still_generate
    (world vector : Type) (encoding_for_model : str -> str -> list nat)
    (encode_error : str -> str -> option exn)
    (chat_completions_create : chat_request -> M world chat_completion)
    (get_embedding : str -> M world vector)
    (retrieve_documents : vector -> nat -> M world (list doc))
    (query : str) (imgs : option (list str)) :
  encode_error (llm_model_to_use imgs) (system_prompt_template ++ query) = None ->
  exists st,
    pack_context_run encoding_for_model encode_error query [] imgs = Returns st
    /\ context_str_parts st = []
    /\ sources st = []
    /\ join nl (context_str_parts st) = []
    /\ messages (chat_request_from st query imgs)
       = [ {| role := lit "system"; content := Text system_prompt_template |};
           {| role := lit "user"; content := Parts (user_content query imgs) |} ]
    /\ (exists images, user_content query imgs = TextPart query :: images)
    /\ (forall w,
          generate_llm_response world encoding_for_model encode_error
            chat_completions_create query [] imgs w
          = (Returns (completion_result []
                        (chat_completions_create
                           (chat_request_from st query imgs) w).1),
             (chat_completions_create (chat_request_from st query imgs) w).2))
    /\ (forall w v w1 w2,
          get_embedding query w = (Returns v, w1) ->
          retrieve_documents v 7 w1 = (Returns [], w2) ->
          generate_rag_answer world vector encoding_for_model encode_error
            chat_completions_create get_embedding retrieve_documents query imgs w
          = (Returns (completion_result []
                        (chat_completions_create
                           (chat_request_from st query imgs) w2).1),
             (chat_completions_create (chat_request_from st query imgs) w2).2)).
Proof.
  intros Haccepts.
  assert (Hrun : pack_context_run encoding_for_model encode_error query [] imgs
                 = Returns (pack_context encoding_for_model query [] imgs)).
  { unfold pack_context_run, pack_run, num_tokens_from_string.
    by rewrite Haccepts. }
  exists (pack_context encoding_for_model query [] imgs).
  rewrite chat_request_from_packed.
  split_and!; try done.
  - by eexists.
  - intros w. by rewrite generate_llm_response_run, Hrun.
  - intros w v w1 w2 He Hr. by rewrite generate_rag_answer_run, He, Hr, Hrun.
Qed.

Lemma empty_passages_still_generate_witness :
  accepts_all (llm_model_to_use None)
    (system_prompt_template ++ lit "What is OLS regression?") = None
  /\ exists st,
       pack_context_run char_encoding accepts_all
         (lit "What is OLS regression?") [] None = Returns st
       /\ context_str_parts st = []
       /\ sources st = []
       /\ forall w,
            generate_llm_response (list call) char_encoding accepts_all
              (stub_chat (Returns plain_completion))
              (lit "What is OLS regression?") [] None w
            = (Returns (completion_result []
                          (stub_chat (Returns plain_completion)
                             (chat_request_from st (lit "What is OLS regression?")
                                None) w).1),
               (stub_chat (Returns plain_completion)
                  (chat_request_from st (lit "What is OLS regression?") None) w).2).
Proof.
  assert (H : accepts_all (llm_model_to_use None)
                (system_prompt_template ++ lit "What is OLS regression?") = None)
    by reflexivity.
  split; [exact H|].
  destruct (empty_passages_still_generate (list call) unit char_encoding
              accepts_all (stub_chat (Returns plain_completion))
              (stub_embedding (Returns ())) (stub_retrieval (Returns []))
              (lit "What is OLS regression?") None H)
    as (st & Hrun & Hparts & Hsrc & _ & _ & _ & Hgen & _).
  exists st. split_and!; [exact Hrun|exact Hparts|exact Hsrc|exact Hgen].
Defined.

(** C8, as stated, fails: no passage is retrieved and the query holds a
    special token; the tokenizer raises on the system prompt and the query
    (line 118), outside every [try] of [generate_llm_response]; the chat
    endpoint is not called and the orchestrator returns its apology. *)
Lemma empty_passages_as_stated_fails :
  pack_context_run char_encoding special_token_error
    (lit "What does <|endoftext|> mean?") [] None
  = Raises (ValueError (lit "disallowed special token"))
  /\ generate_llm_response (list call) char_encoding special_token_error
       (stub_chat (Returns plain_completion))
       (lit "What does <|endoftext|> mean?") [] None []
     = (Raises (ValueError (lit "disallowed special token")), [])
  /\ generate_rag_answer (list call) unit char_encoding special_token_error
       (stub_chat (Returns plain_completion)) (stub_embedding (Returns ()))
       (stub_retrieval (Returns []))
       (lit "What does <|endoftext|> mean?") None []
     = (Returns (answer_dict RAG_APOLOGY []),
        [ EmbedCall (lit "What does <|endoftext|> mean?"); QueryCall 7 ]).
Proof. split_and!; vm_compute; reflexivity. Qed.

(** The example of the specification: no passage is retrieved, the three
    services are called in turn, the chat endpoint with the bare query, and
    the answer comes back stripped, with no sources. *)
Example empty_passages_run :
  stub_pipeline (Returns ()) (Returns []) (Returns plain_completion)
    (lit "What is OLS regression?") None []
  = (Returns (answer_dict (lit "OLS is least squares.") []),
     [ EmbedCall (lit "What is OLS regression?"); QueryCall 7;
       ChatCall {| model := LLM_MODEL_TEXT_ONLY;
                   messages :=
                     [ {| role := lit "system";
                          content := Text system_prompt_template |};
                       {| role := lit "user";
                          content := Parts [TextPart (lit "What is OLS regression?")] |} ];
                   temperature := 7 # 10;
                   max_tokens := 1000 |} ]).
Proof. vm_compute. reflexivity. Qed.

(** The vector index raises: the chat endpoint is not called. *)
Example retrieval_raises_run :
  stub_pipeline (Returns ()) (Raises (ServiceError (lit "timeout")))
    (Returns plain_completion) (lit "What is OLS regression?") None []
  = (Returns (answer_dict RAG_APOLOGY []),
     [ EmbedCall (lit "What is OLS regression?"); QueryCall 7 ]).
Proof. vm_compute. reflexivity. Qed.

(** The chat endpoint raises, or answers without a choice. *)
Example chat_raises_run :
  (stub_pipeline (Returns ()) (Returns ranked_passages)
     (Raises (ServiceError (lit "overloaded")))
     (lit "What is OLS regression?") None []).1
  = Returns (answer_dict LLM_APOLOGY [])
  /\ (stub_pipeline (Returns ()) (Returns ranked_passages)
        (Returns {| choices := [] |})
        (lit "What is OLS regression?") None []).1
     = Returns (answer_dict LLM_APOLOGY [])
  /\ (stub_pipeline (Returns ()) (Returns ranked_passages)
        (Returns {| choices := [None] |})
        (lit "What is OLS regression?") None []).1
     = Returns (answer_dict LLM_APOLOGY []).
Proof. split_and!; vm_compute; reflexivity. Qed.

(** The example of the specification: the embedding service raises. *)
Example embedding_raises_run :
  stub_pipeline (Raises (ServiceError (lit "rate limit"))) (Returns [])
    (Returns plain_completion) (lit "What is OLS regression?") None []
  = (Returns (answer_dict (lit "I'm sorry, an internal error occurred in the RAG system.") []),
     [ EmbedCall (lit "What is OLS regression?") ]).
Proof. vm_compute. reflexivity. Qed.

(** * Properties of the endpoint *)

Lemma split_once_comma before payload :
  comma ∉ before ->
  split_once comma (before ++ comma :: payload) = [before; payload].
Proof.
  induction before as [|c before IH]; intros Hnot; cbn.
  - done.
  - apply not_elem_of_cons in Hnot as [Hne Hnot].
    destruct (N.eqb_spec c comma) as [->|_]; [done|]. by rewrite IH.
Qed.

Lemma split_once_no_comma s : comma ∉ s -> split_once comma s = [s].
Proof.
  induction s as [|c s IH]; intros Hnot; cbn; [done|].
  apply not_elem_of_cons in Hnot as [Hne Hnot].
  destruct (N.eqb_spec c comma) as [->|_]; [done|]. by rewrite IH.
Qed.

(** The loop on well-formed images. *)
Lemma for_img_b64_in_forwards imgs : forall acc,
  Forall (fun img => startswith img DATA_IMAGE = true -> comma ∈ img) imgs ->
  exists out,
    for_img_b64_in imgs acc = Returns (acc ++ out)
    /\ Forall2 forwarded_as imgs out.
Proof.
  induction imgs as [|img rest IH]; intros acc Hwf.
  - exists []. by rewrite app_nil_r.
  - apply Forall_cons in Hwf as [Himg Hrest]. cbn [for_img_b64_in].
    destruct (startswith img DATA_IMAGE) eqn:Hstart.
    + apply list_elem_of_split_l in Himg as (before & payload & -> & Hnot); [|done].
      rewrite split_once_comma by done. cbn.
      destruct (IH (acc ++ [payload]) Hrest) as (out & Heq & Hout).
      exists (payload :: out). split.
      * etrans; [exact Heq|]. by rewrite <- app_assoc.
      * constructor; [by constructor|done].
    + destruct (IH (acc ++ [img]) Hrest) as (out & Heq & Hout).
      exists (img :: out). split.
      * etrans; [exact Heq|]. by rewrite <- app_assoc.
      * constructor; [by constructor|done].
Qed.

(** The loop on a list with a data URL that has no comma. *)
Lemma for_img_b64_in_raises imgs : forall acc,
  Exists (fun img => startswith img DATA_IMAGE = true /\ comma ∉ img) imgs ->
  for_img_b64_in imgs acc = Raises IndexError.
Proof.
  induction imgs as [|img rest IH]; intros acc Hbad; [by inversion Hbad|].
  cbn [for_img_b64_in]. destruct (startswith img DATA_IMAGE) eqn:Hstart.
  - destruct (decide (comma ∈ img)) as [Hin|Hnot].
    + apply list_elem_of_split_l in Hin as (before & payload & -> & Hnot).
      rewrite split_once_comma by done. cbn. apply IH.
      apply Exists_cons in Hbad as [[_ Hno]|Hbad]; [|done].
      destruct Hno. apply elem_of_app. right. by left.
    + by rewrite split_once_no_comma.
  - apply Exists_cons in Hbad as [[Hyes _]|Hbad]; [congruence|by apply IH].
Qed.


(** The pipeline returns a dict with an answer and its sources. *)
Lemma generate_rag_answer_dict
    (world vector : Type) (encoding_for_model : str -> str -> list nat)
    (encode_error : str -> str -> option exn)
    (chat_completions_create : chat_request -> M world chat_completion)
    (get_embedding : str -> M world vector)
    (retrieve_documents : vector -> nat -> M world (list doc))
    query imgs w :
  exists a l w',
    generate_rag_answer world vector encoding_for_model encode_error chat_completions_create
      get_embedding retrieve_documents query imgs w
    = (Returns (answer_dict a l), w').
Proof.
  rewrite generate_rag_answer_run.
  destruct (get_embedding query w) as [[v|e] w1]; [|by eauto].
  destruct (retrieve_documents v 7 w1) as [[docs|e] w2]; [|by eauto].
  destruct (pack_context_run encoding_for_model encode_error query docs imgs)
    as [st|e]; [|by eauto].
  destruct (completion_result_dict
              (sources (pack_context encoding_for_model query docs imgs))
              (chat_completions_create
                 (chat_request_of encoding_for_model query docs imgs) w2).1)
    as (a & l & ->).
  by eauto.
Qed.

Section EndpointProperties.

Variable world : Type.
Variable vector : Type.
Variable encoding_for_model : str -> str -> list nat.
Variable encode_error : str -> str -> option exn.
Variable chat_completions_create : chat_request -> M world chat_completion.
Variable get_embedding : str -> M world vector.
Variable retrieve_documents : vector -> nat -> M world (list doc).

Local Abbreviation rag :=
  (generate_rag_answer world vector encoding_for_model encode_error chat_completions_create
     get_embedding retrieve_documents).
Local Abbreviation endpoint :=
  (ask_question world vector encoding_for_model encode_error chat_completions_create
     get_embedding retrieve_documents).

(** The endpoint answers with what the pipeline returns for the list of
    images it built. *)
Lemma ask_question_run request out w a l w' :
  image_list_for_rag request = Returns out ->
  rag (question request) (Some out) w = (Returns (answer_dict a l), w') ->
  endpoint request w = (Returns {| rag_answer := a; rag_sources := l |}, w').
Proof.
  intros Himgs Hrag.
  unfold ask_question, call_rag, try_except, mbind, M_bind, lift, mret, M_ret.
  rewrite Himgs, Hrag. unfold getitem.
  by rewrite answer_dict_answer, answer_dict_sources.
Qed.

(** A data URL without a comma makes the endpoint raise the HTTP error 500
    before any service is called. *)
Lemma ask_question_commaless request w :
  Exists (fun img => startswith img DATA_IMAGE = true /\ comma ∉ img)
    (default [] (image_data request)) ->
  endpoint request w = (Raises (HTTPException 500 API_ERROR_DETAIL), w).
Proof.
  intros Hbad.
  assert (Himgs : image_list_for_rag request = Raises IndexError).
  { unfold image_list_for_rag.
    destruct (image_data request) as [[|img rest]|];
      cbn [truthy from_option id] in *;
      [by inversion Hbad| |by inversion Hbad].
    by apply for_img_b64_in_raises. }
  unfold ask_question, try_except, mbind, M_bind, lift, raise.
  by rewrite Himgs.
Qed.

End EndpointProperties.

(** C10 (amended): when every submitted image that starts with
    [data:image/] has a comma, the endpoint builds one string per submitted
    image, in the order of submission: the text after the first comma for an
    image that starts with [data:image/], the image itself otherwise.  It
    calls the pipeline with that list and answers with what the pipeline
    returns. *)
Theorem data_url_stripping
    (world vector : Type) (encoding_for_model : str -> str -> list nat)
    (encode_error : str -> str -> option exn)
    (chat_completions_create : chat_request -> M world chat_completion)
    (get_embedding : str -> M world vector)
    (retrieve_documents : vector -> nat -> M world (list doc))
    (request : QueryRequest) :
  Forall (fun img => startswith img DATA_IMAGE = true -> comma ∈ img)
    (default [] (image_data request)) ->
  exists out,
    image_list_for_rag request = Returns out
    /\ Forall2 forwarded_as (default [] (image_data request)) out
    /\ forall w, exists a l w',
         generate_rag_answer world vector encoding_for_model encode_error
           chat_completions_create get_embedding retrieve_documents
           (question request) (Some out) w
         = (Returns (answer_dict a l), w')
         /\ ask_question world vector encoding_for_model encode_error
              chat_completions_create get_embedding retrieve_documents
              request w
            = (Returns {| rag_answer := a; rag_sources := l |}, w').
Proof.
  intros Hwf.
  assert (Hout : exists out, image_list_for_rag request = Returns out
                   /\ Forall2 forwarded_as (default [] (image_data request)) out).
  { unfold image_list_for_rag.
    destruct (image_data request) as [[|img rest]|];
      cbn [truthy from_option id] in *;
      [by exists []| |by exists []].
    destruct (for_img_b64_in_forwards (img :: rest) [] Hwf) as (out & Heq & Hfw).
    by exists out. }
  destruct Hout as (out & Himgs & Hfw). exists out. split_and!; [done..|].
  intros w.
  destruct (generate_rag_answer_dict world vector encoding_for_model encode_error
              chat_completions_create get_embedding retrieve_documents
              (question request) (Some out) w) as (a & l & w' & Hrag).
  exists a, l, w'. split; [done|]. by eapply ask_question_run.
Qed.

(** A request with a data URL and a bare payload: the payload of the first
    and the second as it is are forwarded. *)
Lemma data_url_stripping_witness :
  Forall (fun img => startswith img DATA_IMAGE = true -> comma ∈ img)
    (default [] (image_data sample_request))
  /\ exists out,
       image_list_for_rag sample_request = Returns out
       /\ Forall2 forwarded_as (default [] (image_data sample_request)) out
       /\ forall w, exists a l w',
            stub_pipeline (Returns ()) (Returns []) (Returns plain_completion)
              (question sample_request) (Some out) w
            = (Returns (answer_dict a l), w')
            /\ stub_endpoint (Returns ()) (Returns []) (Returns plain_completion)
                 sample_request w
               = (Returns {| rag_answer := a; rag_sources := l |}, w').
Proof.
  assert (H : Forall (fun img => startswith img DATA_IMAGE = true -> comma ∈ img)
                (default [] (image_data sample_request))).
  { unfold sample_request. cbn [from_option image_data id].
    apply Forall_cons_2; [|apply Forall_cons_2; [|apply Forall_nil_2]].
    - intros _. apply (bool_decide_unpack _). vm_compute. exact I.
    - intros Hs. vm_compute in Hs. discriminate. }
  split; [exact H|].
  exact (data_url_stripping (list call) unit char_encoding accepts_all
           (stub_chat (Returns plain_completion)) (stub_embedding (Returns ()))
           (stub_retrieval (Returns [])) sample_request H).
Defined.

Example sample_request_forwarded :
  image_list_for_rag sample_request
  = Returns [ lit "iVBORw0KGgo="; lit "R0lGODlh" ]
  /\ stub_endpoint (Returns ()) (Returns []) (Returns plain_completion)
       sample_request []
     = (Returns {| rag_answer := lit "OLS is least squares."; rag_sources := [] |},
        [ EmbedCall (lit "What is in the picture?"); QueryCall 7;
          ChatCall (chat_request_of char_encoding (lit "What is in the picture?")
                      [] (Some [ lit "iVBORw0KGgo="; lit "R0lGODlh" ])) ]).
Proof. split; vm_compute; reflexivity. Qed.

(** C10, as stated, fails: an image that starts with [data:image/] and has
    no comma has no text after a first comma; [split(",", 1)[1]] raises
    [IndexError], nothing is forwarded, and the endpoint raises the HTTP
    error 500 without calling any service. *)
Lemma data_url_stripping_as_stated_fails :
  image_list_for_rag commaless_request = Raises IndexError
  /\ stub_endpoint (Returns ()) (Returns []) (Returns plain_completion)
       commaless_request []
     = (Raises (HTTPException 500 API_ERROR_DETAIL), [])
  /\ ~ exists out,
         image_list_for_rag commaless_request = Returns out
         /\ Forall2 forwarded_as (default [] (image_data commaless_request)) out.
Proof.
  split_and!; [vm_compute; reflexivity..|].
  intros (out & Hret & _). vm_compute in Hret. discriminate.
Qed.

(** * Further properties of the context packer *)

Lemma block_tokens_app (num_tokens : str -> nat) (l1 l2 : list doc) :
  block_tokens num_tokens (l1 ++ l2)
  = block_tokens num_tokens l1 + block_tokens num_tokens l2.
Proof. unfold block_tokens. by rewrite fmap_app, sum_list_with_app. Qed.

Lemma block_tokens_take_S (num_tokens : str -> nat) (docs : list doc) k d :
  docs !! k = Some d ->
  block_tokens num_tokens (take k docs) + num_tokens (doc_for_llm d)
  <= block_tokens num_tokens docs.
Proof.
  intros Hd. rewrite <- (take_drop (S k) docs) at 2.
  rewrite (take_S_r docs k d Hd), !block_tokens_app, block_tokens_cons,
    block_tokens_nil. lia.
Qed.

(** X1: when the base and the blocks of all passages together stay below
    the budget, every passage is admitted: the context has the block of
    each passage and the citations name each passage, in the order of the
    list. *)
Theorem pack_admits_all_that_fit
    (num_tokens : str -> nat) (budget reserved : nat) (query : str)
    (docs : list doc) :
  base_tokens num_tokens reserved query + block_tokens num_tokens docs < budget ->
  let st := pack num_tokens budget reserved query docs in
  context_str_parts st = doc_for_llm <$> docs
  /\ sources st = citation_of <$> docs
  /\ current_tokens st
     = base_tokens num_tokens reserved query + block_tokens num_tokens docs.
Proof.
  intros Hfit st. subst st.
  destruct (pack_prefix num_tokens budget reserved query docs)
    as (k & Hk & Hparts & Hsrc & Htok & _ & Hat).
  assert (Hall : k = length docs).
  { destruct (decide (k = length docs)) as [|Hne]; [done|].
    destruct (lookup_lt_is_Some_2 docs k ltac:(lia)) as [d Hd].
    specialize (Hat d Hd).
    pose proof (block_tokens_take_S num_tokens docs k d Hd). lia. }
  subst k. rewrite take_ge in * by done. done.
Qed.

Lemma pack_admits_all_that_fit_witness :
  base_tokens text_only_count 500 (filler 26)
  + block_tokens text_only_count (take 2 ranked_passages) < 1200
  /\ sources (pack text_only_count 1200 500 (filler 26) (take 2 ranked_passages))
     = citation_of <$> take 2 ranked_passages.
Proof.
  assert (H : base_tokens text_only_count 500 (filler 26)
              + block_tokens text_only_count (take 2 ranked_passages) < 1200).
  { apply Nat.ltb_lt. vm_compute. reflexivity. }
  split; [exact H|].
  exact (proj1 (proj2 (pack_admits_all_that_fit text_only_count 1200 500
                         (filler 26) (take 2 ranked_passages) H))).
Defined.

(** X2: a larger budget never loses a passage: the citations packed under
    a budget are a prefix of those packed, for the same query and passages,
    under any budget at least as large. *)
Theorem pack_monotone_in_budget
    (num_tokens : str -> nat) (budget budget' reserved : nat) (query : str)
    (docs : list doc) :
  budget <= budget' ->
  sources (pack num_tokens budget reserved query docs)
    `prefix_of` sources (pack num_tokens budget' reserved query docs)
  /\ context_str_parts (pack num_tokens budget reserved query docs)
       `prefix_of` context_str_parts (pack num_tokens budget' reserved query docs).
Proof.
  intros Hle.
  destruct (pack_prefix num_tokens budget reserved query docs)
    as (k & Hk & Hparts & Hsrc & _ & Hbefore & _).
  destruct (pack_prefix num_tokens budget' reserved query docs)
    as (k' & Hk' & Hparts' & Hsrc' & _ & _ & Hat').
  assert (Hkk : k <= k').
  { destruct (decide (k <= k')) as [|Hgt]; [done|].
    destruct (lookup_lt_is_Some_2 docs k' ltac:(lia)) as [d Hd].
    specialize (Hat' d Hd). specialize (Hbefore k' d ltac:(lia) Hd). lia. }
  assert (Hpre : take k docs `prefix_of` take k' docs).
  { exists (take (k' - k) (drop k docs)).
    rewrite take_take_drop. f_equal. lia. }
  rewrite Hparts, Hsrc, Hparts', Hsrc'.
  destruct Hpre as [rest ->]. rewrite !fmap_app.
  split; by eexists.
Qed.

(** One citation under a budget of 1000, two under a budget of 1200. *)
Lemma pack_monotone_in_budget_witness :
  1000 <= 1200
  /\ sources (pack text_only_count 1000 500 (filler 26) ranked_passages)
       `prefix_of` sources (pack text_only_count 1200 500 (filler 26) ranked_passages).
Proof.
  assert (H : 1000 <= 1200) by lia.
  split; [exact H|].
  exact (proj1 (pack_monotone_in_budget text_only_count 1000 1200 500
                  (filler 26) ranked_passages H)).
Defined.

Example budgets_1000_and_1200 :
  length (sources (pack text_only_count 1000 500 (filler 26) ranked_passages)) = 1
  /\ length (sources (pack text_only_count 1200 500 (filler 26) ranked_passages)) = 2.
Proof. vm_compute. done. Qed.

(** * Further properties of the generator *)

Lemma lstrip_split s :
  exists pre, s = pre ++ lstrip s /\ Forall (fun c => isspace c = true) pre.
Proof.
  induction s as [|x s (pre & Hs & Hpre)]; [by exists []|]. cbn.
  destruct (isspace x) eqn:Hx; [|by exists []].
  exists (x :: pre). split; [by rewrite Hs at 1|by constructor].
Qed.

Lemma rstrip_split s :
  exists post, s = rstrip s ++ post /\ Forall (fun c => isspace c = true) post.
Proof.
  destruct (lstrip_split (reverse s)) as (pre & Hs & Hpre).
  exists (reverse pre). split; [|by apply Forall_reverse].
  unfold rstrip. rewrite <- reverse_app, <- Hs. by rewrite reverse_involutive.
Qed.

Lemma strip_first s x t : strip s = x :: t -> isspace x = false.
Proof.
  unfold strip. intros Hs.
  destruct (rstrip_split (lstrip s)) as (post & Hl & _).
  rewrite Hs in Hl. by apply lstrip_head in Hl.
Qed.

Lemma strip_last s front x : strip s = front ++ [x] -> isspace x = false.
Proof.
  unfold strip, rstrip. intros Hs.
  apply (f_equal reverse) in Hs.
  rewrite reverse_involutive, reverse_app in Hs. by apply lstrip_head in Hs.
Qed.

(** X3: when the packer has finished and the chat endpoint returns a
    first choice with a content, [generate_llm_response] returns, with the
    citations of the packer, that content without the white space before
    and after it: what is removed at both ends is white space only, and the
    answer neither starts nor ends with white space. *)
Theorem answer_is_stripped_content
    (world : Type) (encoding_for_model : str -> str -> list nat)
    (encode_error : str -> str -> option exn)
    (chat_completions_create : chat_request -> M world chat_completion)
    (query : str) (docs : list doc) (imgs : option (list str)) (st : locals)
    (w : world) (response : chat_completion) (w' : world) (c : str)
    (rest : list (option str)) :
  pack_context_run encoding_for_model encode_error query docs imgs = Returns st ->
  chat_completions_create (chat_request_from st query imgs) w
  = (Returns response, w') ->
  choices response = Some c :: rest ->
  exists a pre post,
    generate_llm_response world encoding_for_model encode_error
      chat_completions_create query docs imgs w
    = (Returns (answer_dict a (sources st)), w')
    /\ c = pre ++ a ++ post
    /\ Forall (fun x => isspace x = true) pre
    /\ Forall (fun x => isspace x = true) post
    /\ (forall x t, a = x :: t -> isspace x = false)
    /\ (forall front x, a = front ++ [x] -> isspace x = false).
Proof.
  intros Hrun Hcall Hchoices.
  pose proof (pack_context_run_agrees _ _ _ _ _ _ Hrun) as Hst. subst st.
  rewrite chat_request_from_packed in Hcall.
  destruct (lstrip_split c) as (pre & Hc & Hpre).
  destruct (rstrip_split (lstrip c)) as (post & Hl & Hpost).
  exists (strip c), pre, post. split_and!; try done.
  - by apply (generate_llm_response_succeeds world encoding_for_model encode_error
                chat_completions_create query docs imgs
                (pack_context encoding_for_model query docs imgs)
                w response w' c rest).
  - unfold strip. by rewrite <- Hl.
  - intros x t. apply strip_first.
  - intros front x. apply strip_last.
Qed.

Lemma answer_is_stripped_content_witness :
  exists a pre post,
    generate_llm_response (list call) char_encoding accepts_all
      (stub_chat (Returns plain_completion))
      (lit "What is OLS regression?") ranked_passages None []
    = (Returns (answer_dict a
                  (sources (pack_context char_encoding
                              (lit "What is OLS regression?") ranked_passages None))),
       [ChatCall (chat_request_of char_encoding
                    (lit "What is OLS regression?") ranked_passages None)])
    /\ lit " OLS is least squares. " = pre ++ a ++ post
    /\ Forall (fun x => isspace x = true) pre
    /\ Forall (fun x => isspace x = true) post
    /\ (forall x t, a = x :: t -> isspace x = false)
    /\ (forall front x, a = front ++ [x] -> isspace x = false).
Proof.
  exact (answer_is_stripped_content (list call) char_encoding accepts_all
           (stub_chat (Returns plain_completion))
           (lit "What is OLS regression?") ranked_passages None
           (pack_context char_encoding (lit "What is OLS regression?")
              ranked_passages None) []
           plain_completion _ (lit " OLS is least squares. ") []
           (pack_context_run_accepts char_encoding accepts_all
              (lit "What is OLS regression?") ranked_passages None
              (fun _ => eq_refl))
           eq_refl eq_refl).
Defined.

(** * Properties of the embed and retrieve stages *)

Section RetrievalProperties.

Variable world : Type.
Variable float : Type.
Variable index_handle : Type.
Variable PINECONE_INDEX_NAME : str.
Variable embeddings_create : str -> str -> M world (list (list float)).
Variable pc_Index : str -> M world index_handle.
Variable index_query :
  index_handle -> list float -> nat -> bool -> M world (list (index_match float)).

Local Abbreviation embed := (get_embedding world float embeddings_create).
Local Abbreviation retrieve :=
  (retrieve_documents world float index_handle PINECONE_INDEX_NAME
     pc_Index index_query).

Lemma get_embedding_run text w :
  embed text w
  = match embeddings_create text EMBEDDING_MODEL w with
    | (Returns response_data, w') => (subscript response_data 0, w')
    | (Raises e, w') => (Raises e, w')
    end.
Proof.
  unfold get_embedding, try_except, mbind, M_bind, lift, raise.
  destruct (embeddings_create text EMBEDDING_MODEL w) as [[data|e] w']; [|done].
  by destruct (subscript data 0).
Qed.

Lemma retrieve_documents_run v top_k w :
  retrieve v top_k w
  = match pc_Index PINECONE_INDEX_NAME w with
    | (Returns index, w1) =>
        match index_query index v top_k true w1 with
        | (Returns matches, w2) => (Returns (retrieved_doc <$> matches), w2)
        | (Raises e, w2) => (Raises e, w2)
        end
    | (Raises e, w1) => (Raises e, w1)
    end.
Proof.
  unfold retrieve_documents, try_except, mbind, M_bind, mret, M_ret, raise.
  destruct (pc_Index PINECONE_INDEX_NAME w) as [[index|e] w1]; [|done].
  by destruct (index_query index v top_k true w1) as [[matches|e] w2].
Qed.

End RetrievalProperties.

(** X4: [get_embedding] returns the first embedding of the response.  It
    raises what the embedding endpoint raises, unchanged, and raises
    [IndexError] when the response carries no embedding. *)
Theorem get_embedding_first_or_raises
    (world float : Type)
    (embeddings_create : str -> str -> M world (list (list float)))
    (text : str) (w : world) :
  (forall e w', embeddings_create text EMBEDDING_MODEL w = (Raises e, w') ->
     get_embedding world float embeddings_create text w = (Raises e, w'))
  /\ (forall w', embeddings_create text EMBEDDING_MODEL w = (Returns [], w') ->
        get_embedding world float embeddings_create text w = (Raises IndexError, w'))
  /\ (forall v others w',
        embeddings_create text EMBEDDING_MODEL w = (Returns (v :: others), w') ->
        get_embedding world float embeddings_create text w = (Returns v, w')).
Proof.
  split_and!.
  - intros e w' H. by rewrite get_embedding_run, H.
  - intros w' H. by rewrite get_embedding_run, H.
  - intros v others w' H. by rewrite get_embedding_run, H.
Qed.

Lemma retrieved_doc_entries {float} (m : index_match float) :
  dom (retrieved_doc m) = ({[ "id"; "score"; "text"; "title"; "url" ]} : gset string)
  /\ retrieved_doc m !! "id" = Some (FStr (match_id m))
  /\ retrieved_doc m !! "score" = Some (FFloat (match_score m))
  /\ retrieved_doc m !! "text" = Some (FStr (get (match_metadata m) "text" []))
  /\ retrieved_doc m !! "title"
     = Some (FStr (get (match_metadata m) "title" (lit "No Title")))
  /\ retrieved_doc m !! "url" = Some (FStr (get (match_metadata m) "url" (lit "#"))).
Proof.
  unfold retrieved_doc. split_and!.
  - rewrite !dom_insert_L, dom_singleton_L. set_solver.
  - by simplify_map_eq.
  - by simplify_map_eq.
  - by simplify_map_eq.
  - by simplify_map_eq.
  - by simplify_map_eq.
Qed.

(** X5: when the index is reached and answers the query,
    [retrieve_documents] returns one dict per match, in the order of the
    matches.  Each dict has the five keys [id], [score], [text], [title]
    and [url]; the text, the title and the url are those of the metadata
    of the match, or the empty string, [No Title] and [#] where the
    metadata has none.  An exception of [pc.Index] or of the query is
    raised again, unchanged. *)
Theorem retrieve_documents_one_per_match
    (world float index_handle : Type) (PINECONE_INDEX_NAME : str)
    (pc_Index : str -> M world index_handle)
    (index_query :
       index_handle -> list float -> nat -> bool -> M world (list (index_match float)))
    (v : list float) (top_k : nat) (w : world) :
  (forall e w1, pc_Index PINECONE_INDEX_NAME w = (Raises e, w1) ->
     retrieve_documents world float index_handle PINECONE_INDEX_NAME
       pc_Index index_query v top_k w = (Raises e, w1))
  /\ (forall index w1 e w2,
        pc_Index PINECONE_INDEX_NAME w = (Returns index, w1) ->
        index_query index v top_k true w1 = (Raises e, w2) ->
        retrieve_documents world float index_handle PINECONE_INDEX_NAME
          pc_Index index_query v top_k w = (Raises e, w2))
  /\ (forall index w1 matches w2,
        pc_Index PINECONE_INDEX_NAME w = (Returns index, w1) ->
        index_query index v top_k true w1 = (Returns matches, w2) ->
        exists docs,
          retrieve_documents world float index_handle PINECONE_INDEX_NAME
            pc_Index index_query v top_k w = (Returns docs, w2)
          /\ length docs = length matches
          /\ forall i m, matches !! i = Some m ->
               exists d, docs !! i = Some d
                 /\ dom d = ({[ "id"; "score"; "text"; "title"; "url" ]} : gset string)
                 /\ d !! "id" = Some (FStr (match_id m))
                 /\ d !! "score" = Some (FFloat (match_score m))
                 /\ d !! "text" = Some (FStr (get (match_metadata m) "text" []))
                 /\ d !! "title"
                    = Some (FStr (get (match_metadata m) "title" (lit "No Title")))
                 /\ d !! "url"
                    = Some (FStr (get (match_metadata m) "url" (lit "#")))).
Proof.
  split_and!.
  - intros e w1 Hi. by rewrite retrieve_documents_run, Hi.
  - intros index w1 e w2 Hi Hq. by rewrite retrieve_documents_run, Hi, Hq.
  - intros index w1 matches w2 Hi Hq. exists (retrieved_doc <$> matches).
    rewrite retrieve_documents_run, Hi, Hq. split_and!; [done|by rewrite length_fmap|].
    intros i m Hm. exists (retrieved_doc m).
    split; [by rewrite list_lookup_fmap, Hm|]. apply retrieved_doc_entries.
Qed.

Lemma passage_of_lookup {float} (d : gmap string (field float)) key s :
  d !! key = Some (FStr s) -> passage_of d !! key = Some s.
Proof. intros H. unfold passage_of. by rewrite lookup_omap, H. Qed.

(** X6: a passage built by [retrieve_documents] always carries a text, a
    title and a url, so that the generator never falls back on its own
    defaults for it.  It is cited with the title and the url of the
    metadata of its match, or with [No Title] and [#] where the metadata
    has none, and the text of its block is the text of the metadata or the
    empty string. *)
Theorem retrieved_passage_cited_from_metadata
    (float : Type) (m : index_match float) :
  let p := passage_of (retrieved_doc m) in
  is_Some (p !! "text") /\ is_Some (p !! "title") /\ is_Some (p !! "url")
  /\ doc_content p = get (match_metadata m) "text" []
  /\ citation_of p
     = {| title := get (match_metadata m) "title" (lit "No Title");
          url := get (match_metadata m) "url" (lit "#") |}
  /\ doc_for_llm p
     = nl ++ nl ++ lit "--- Document from "
       ++ get (match_metadata m) "title" (lit "No Title")
       ++ lit " (Source: " ++ get (match_metadata m) "url" (lit "#")
       ++ lit ") ---" ++ nl ++ get (match_metadata m) "text" [].
Proof.
  intros p. subst p.
  destruct (retrieved_doc_entries m) as (_ & _ & _ & Htext & Htitle & Hurl).
  apply passage_of_lookup in Htext, Htitle, Hurl.
  unfold citation_of, doc_for_llm, doc_content, doc_title, doc_url.
  unfold get at 1 4 5 6 7 8. rewrite Htext, Htitle, Hurl. cbn [default from_option id].
  split_and!; by eauto.
Qed.

(** X7: the pipeline over the three stages of [rag_system.py].  When the
    embedding endpoint raises or returns no embedding, when [pc.Index]
    raises, or when the query of the index raises, the pipeline returns the
    apology of the RAG system with no sources, and no later service is
    called.  Otherwise the index is queried for 7 matches with the first
    embedding, and [generate_llm_response] runs on the passages built from
    the matches: what it returns is returned, and when it raises the
    pipeline returns the apology of the RAG system. *)
Theorem rag_system_stage_by_stage
    (world float index_handle : Type) (PINECONE_INDEX_NAME : str)
    (embeddings_create : str -> str -> M world (list (list float)))
    (pc_Index : str -> M world index_handle)
    (index_query :
       index_handle -> list float -> nat -> bool -> M world (list (index_match float)))
    (encoding_for_model : str -> str -> list nat)
    (encode_error : str -> str -> option exn)
    (chat_completions_create : chat_request -> M world chat_completion)
    (query : str) (imgs : option (list str)) (w : world) :
  let pipeline :=
    rag_system world float index_handle PINECONE_INDEX_NAME embeddings_create
      pc_Index index_query encoding_for_model encode_error chat_completions_create in
  (forall e w1, embeddings_create query EMBEDDING_MODEL w = (Raises e, w1) ->
     pipeline query imgs w = (Returns (answer_dict RAG_APOLOGY []), w1))
  /\ (forall w1, embeddings_create query EMBEDDING_MODEL w = (Returns [], w1) ->
        pipeline query imgs w = (Returns (answer_dict RAG_APOLOGY []), w1))
  /\ (forall v others w1 e w2,
        embeddings_create query EMBEDDING_MODEL w = (Returns (v :: others), w1) ->
        pc_Index PINECONE_INDEX_NAME w1 = (Raises e, w2) ->
        pipeline query imgs w = (Returns (answer_dict RAG_APOLOGY []), w2))
  /\ (forall v others w1 index w2 e w3,
        embeddings_create query EMBEDDING_MODEL w = (Returns (v :: others), w1) ->
        pc_Index PINECONE_INDEX_NAME w1 = (Returns index, w2) ->
        index_query index v 7 true w2 = (Raises e, w3) ->
        pipeline query imgs w = (Returns (answer_dict RAG_APOLOGY []), w3))
  /\ (forall v others w1 index w2 matches w3,
        embeddings_create query EMBEDDING_MODEL w = (Returns (v :: others), w1) ->
        pc_Index PINECONE_INDEX_NAME w1 = (Returns index, w2) ->
        index_query index v 7 true w2 = (Returns matches, w3) ->
        pipeline query imgs w
        = match generate_llm_response world encoding_for_model encode_error
                  chat_completions_create query
                  (passage_of <$> (retrieved_doc <$> matches)) imgs w3 with
          | (Returns r, w4) => (Returns r, w4)
          | (Raises _, w4) => (Returns (answer_dict RAG_APOLOGY []), w4)
          end).
Proof.
  intros pipeline. subst pipeline.
  unfold rag_system, generate_rag_answer, retrieve_passages.
  split_and!.
  - intros e w1 He. by rewrite orchestrate_run, get_embedding_run, He.
  - intros w1 He. by rewrite orchestrate_run, get_embedding_run, He.
  - intros v others w1 e w2 He Hi.
    rewrite orchestrate_run, get_embedding_run, He. cbn.
    unfold mbind, M_bind. by rewrite retrieve_documents_run, Hi.
  - intros v others w1 index w2 e w3 He Hi Hq.
    rewrite orchestrate_run, get_embedding_run, He. cbn.
    unfold mbind, M_bind. by rewrite retrieve_documents_run, Hi, Hq.
  - intros v others w1 index w2 matches w3 He Hi Hq.
    rewrite orchestrate_run, get_embedding_run, He. cbn.
    unfold mbind, M_bind. rewrite retrieve_documents_run, Hi, Hq. cbn.
    by destruct (generate_llm_response _ _ _ _ _ _ _ w3) as [[r|e] w4].
Qed.

(** * Further properties of the [/api/] endpoint *)

Lemma for_img_b64_in_length imgs : forall acc out,
  for_img_b64_in imgs acc = Returns out ->
  length out = length acc + length imgs.
Proof.
  induction imgs as [|img rest IH]; intros acc out; cbn [for_img_b64_in].
  - intros [= <-]. cbn. lia.
  - destruct (startswith img DATA_IMAGE).
    + destruct (subscript (split_once comma img) 1) as [payload|e]; [|done].
      intros H. apply IH in H. rewrite H, length_app. cbn. lia.
    + intros H. apply IH in H. rewrite H, length_app. cbn. lia.
Qed.

Lemma image_list_for_rag_length request out :
  image_list_for_rag request = Returns out ->
  length out = length (default [] (image_data request)).
Proof.
  unfold image_list_for_rag.
  destruct (image_data request) as [[|img rest]|]; cbn [truthy from_option id].
  - by intros [= <-].
  - intros H. by apply for_img_b64_in_length in H.
  - by intros [= <-].
Qed.

(** X9: a request through the [/api/] endpoint whose images are
    forwarded.  The endpoint calls the pipeline with the forwarded list.
    The request that the pipeline builds for the chat endpoint has the
    vision model exactly when an image was submitted; its user message is
    the question followed by one image part per submitted image, in order,
    whose URL is [data:image/jpeg;base64,] and the forwarded string,
    whatever the media type of the submitted data URL.  When the first two
    stages return and the packer finishes, the chat endpoint is called
    once, with that request. *)
Theorem ask_question_sends_jpeg_data_urls
    (world vector : Type) (encoding_for_model : str -> str -> list nat)
    (encode_error : str -> str -> option exn)
    (chat_completions_create : chat_request -> M world chat_completion)
    (get_embedding : str -> M world vector)
    (retrieve_documents : vector -> nat -> M world (list doc))
    (request : QueryRequest) (out : list str) (docs : list doc) :
  image_list_for_rag request = Returns out ->
  let chat_request :=
    chat_request_of encoding_for_model (question request) docs (Some out) in
  messages chat_request !! 1
  = Some {| role := lit "user";
            content :=
              Parts (TextPart (question request) ::
                     ((fun payload =>
                         ImageUrlPart (lit "data:image/jpeg;base64," ++ payload)
                                      (lit "auto")) <$> out)) |}
  /\ length out = length (default [] (image_data request))
  /\ (model chat_request = LLM_MODEL_VISION
      <-> exists img rest, image_data request = Some (img :: rest))
  /\ (forall w,
        ask_question world vector encoding_for_model encode_error
          chat_completions_create get_embedding retrieve_documents request w
        = try_except
            (call_rag world vector encoding_for_model encode_error
               chat_completions_create get_embedding retrieve_documents
               (question request) out)
            (fun e => raise (HTTPException 500 API_ERROR_DETAIL)) w)
  /\ (forall w v w1 w2 st,
        get_embedding (question request) w = (Returns v, w1) ->
        retrieve_documents v 7 w1 = (Returns docs, w2) ->
        pack_context_run encoding_for_model encode_error (question request)
          docs (Some out) = Returns st ->
        generate_rag_answer world vector encoding_for_model encode_error
          chat_completions_create get_embedding retrieve_documents
          (question request) (Some out) w
        = (Returns (completion_result (sources st)
                      (chat_completions_create chat_request w2).1),
           (chat_completions_create chat_request w2).2)).
Proof.
  intros Himgs chat_request. subst chat_request.
  pose proof (image_list_for_rag_length request out Himgs) as Hlen.
  split_and!.
  - cbn. unfold user_content. by destruct out.
  - done.
  - cbn. unfold llm_model_to_use.
    destruct (image_data request) as [[|img rest]|]; destruct out as [|p out];
      cbn in *; try done.
    + split; [intros H; by destruct models_differ|by intros (? & ? & ?)].
    + split; [by eauto|done].
    + split; [intros H; by destruct models_differ|by intros (? & ? & ?)].
  - intros w. unfold ask_question, try_except, mbind, M_bind at 1. unfold lift at 1.
    by rewrite Himgs.
  - intros w v w1 w2 st He Hr Hrun.
    pose proof (pack_context_run_agrees _ _ _ _ _ _ Hrun) as ->.
    by rewrite generate_rag_answer_run, He, Hr, Hrun.
Qed.

(** The PNG data URL of [sample_request] reaches the chat endpoint as a
    JPEG data URL, next to the bare payload. *)
Lemma ask_question_sends_jpeg_data_urls_witness :
  messages (chat_request_of char_encoding (question sample_request) []
              (Some [ lit "iVBORw0KGgo="; lit "R0lGODlh" ])) !! 1
  = Some {| role := lit "user";
            content :=
              Parts [ TextPart (lit "What is in the picture?");
                      ImageUrlPart (lit "data:image/jpeg;base64,iVBORw0KGgo=")
                                   (lit "auto");
                      ImageUrlPart (lit "data:image/jpeg;base64,R0lGODlh")
                                   (lit "auto") ] |}.
Proof.
  exact (proj1 (ask_question_sends_jpeg_data_urls (list call) unit char_encoding
                  accepts_all (stub_chat (Returns plain_completion))
                  (stub_embedding (Returns ())) (stub_retrieval (Returns []))
                  sample_request [ lit "iVBORw0KGgo="; lit "R0lGODlh" ] []
                  eq_refl)).
Defined.

(** * Properties of the [/ask] endpoint *)

Lemma for_source_in_citations (l : list citation) : forall acc,
  api_index.for_source_in (source_dict <$> l) acc
  = acc ++ ((fun c => ({[ "url" := url c; "text" := title c ]} : gmap string str))
            <$> l).
Proof.
  induction l as [|c l IH]; intros acc; cbn [fmap list_fmap api_index.for_source_in].
  - by rewrite app_nil_r.
  - change (list_fmap _ _ source_dict l) with (source_dict <$> l).
    rewrite IH. unfold api_index.loop_body, source_dict.
    rewrite lookup_insert_ne by done. rewrite lookup_singleton_eq, lookup_insert_eq.
    by rewrite <- app_assoc.
Qed.

(** X10: the [/ask] endpoint over the pipeline answers with status 200,
    the answer of the pipeline, and one link per source of the pipeline, in
    the same order; the url of a link is the url of the source and its text
    is the title of the source. *)
Theorem ask_links_follow_sources
    (world vector : Type) (encoding_for_model : str -> str -> list nat)
    (encode_error : str -> str -> option exn)
    (chat_completions_create : chat_request -> M world chat_completion)
    (get_embedding : str -> M world vector)
    (retrieve_documents : vector -> nat -> M world (list doc))
    (request : api_index.QueryRequest) (w : world) :
  let pipeline q :=
    generate_rag_answer world vector encoding_for_model encode_error chat_completions_create
      get_embedding retrieve_documents q None in
  exists a l w',
    pipeline (api_index.question request) w = (Returns (answer_dict a l), w')
    /\ api_index.query_knowledge_base world pipeline request w
       = (Returns
            {| api_index.status_code := 200;
               api_index.content :=
                 {[ "answer" := api_index.JValue (PStr a);
                    "links" :=
                      api_index.JLinks
                        ((fun c => ({[ "url" := url c; "text" := title c ]}
                                    : gmap string str)) <$> l) ]} |},
          w').
Proof.
  intros pipeline. subst pipeline.
  destruct (generate_rag_answer_dict world vector encoding_for_model encode_error
              chat_completions_create get_embedding retrieve_documents
              (api_index.question request) None w) as (a & l & w' & Hrag).
  exists a, l, w'. split; [done|].
  unfold api_index.query_knowledge_base, try_except, mbind, M_bind, mret, M_ret.
  rewrite Hrag. unfold api_index.answer_text, api_index.links_list, get.
  rewrite answer_dict_answer, answer_dict_sources. cbn [default from_option id].
  by rewrite for_source_in_citations.
Qed.

(** The stand-in used when [rag_system] cannot be imported answers every
    question with its fixed sentence and no link. *)
Example import_fallback_response :
  api_index.query_knowledge_base (list call) api_index.import_fallback
    {| api_index.question := lit "What is OLS regression?" |} []
  = (Returns {| api_index.status_code := 200;
                api_index.content :=
                  {[ "answer" := api_index.JValue (PStr (lit "Error loading RAG system"));
                     "links" := api_index.JLinks [] ]} |},
     []).
Proof. vm_compute. reflexivity. Qed.

(** * Properties of [retriever.py] *)

Section RetrieverProperties.

Variable world : Type.
Variable float : Type.
Variable client : Type.
Variable index_handle : Type.
Variable PINECONE_API_KEY : option str.
Variable PINECONE_ENVIRONMENT : option str.
Variable Pinecone : str -> str -> M world client.
Variable list_indexes_names : client -> M world (list str).
Variable Index : client -> str -> M world index_handle.
Variable index_query :
  index_handle -> list float -> nat -> bool -> M world (list (index_match float)).
Variable embeddings_create : str -> str -> M world (list (list float)).

Local Abbreviation state := (retriever.globals client index_handle * world)%type.
Local Abbreviation initialize :=
  (retriever.initialize_retriever_pinecone world client index_handle
     PINECONE_API_KEY PINECONE_ENVIRONMENT Pinecone list_indexes_names Index).
Local Abbreviation ensure :=
  (retriever.ensure_initialized world client index_handle
     PINECONE_API_KEY PINECONE_ENVIRONMENT Pinecone list_indexes_names Index).
Local Abbreviation embedding :=
  (retriever.get_query_embedding world float client index_handle
     PINECONE_API_KEY PINECONE_ENVIRONMENT Pinecone list_indexes_names Index
     embeddings_create).
Local Abbreviation chunks :=
  (retriever.retrieve_relevant_chunks world float client index_handle
     PINECONE_API_KEY PINECONE_ENVIRONMENT Pinecone list_indexes_names Index
     index_query embeddings_create).
Local Abbreviation ready := (retriever.ready_state client index_handle).

Ltac run_retriever :=
  unfold retriever.retrieve_relevant_chunks, retriever.get_query_embedding,
    retriever.ensure_initialized, retriever.initialize_retriever_pinecone,
    retriever.set_pc_retriever, retriever.set_pinecone_index_retriever,
    retriever.set_retriever_initialized, retriever.assign, retriever.read,
    retriever.call, try_except, mbind, M_bind, mret, M_ret, lift;
  cbv beta iota delta [fst snd].

Ltac finish_case :=
  eexists _, _; split_and!; try done;
  unfold retriever.ready_state; cbn;
  try (intros _; by intros [=]); try (intros; by eexists).

(** What a run of [initialize_retriever_pinecone] does to the module
    variables. *)
Lemma initialize_spec (gw : state) :
  exists b gw',
    initialize gw = (Returns b, gw')
    /\ retriever.retriever_initialized gw'.1
       = (retriever.retriever_initialized gw.1 || b)
    /\ (retriever.retriever_initialized gw.1 = false ->
        retriever.retriever_initialized gw'.1 = b)
    /\ (retriever.retriever_initialized gw.1 = true -> b = true /\ gw' = gw)
    /\ (ready gw.1 -> ready gw'.1).
Proof.
  destruct gw as [[pc0 idx0 flag] w]. run_retriever.
  cbn [retriever.retriever_initialized retriever.pc_retriever
       retriever.pinecone_index_retriever].
  destruct flag; [finish_case|].
  destruct (negb (truthy PINECONE_API_KEY) || negb (truthy PINECONE_ENVIRONMENT));
    [finish_case|].
  destruct (Pinecone _ _ w) as [[pc|e] w1]; cbv beta iota; [|finish_case].
  destruct (list_indexes_names pc w1) as [[names|e] w2]; cbv beta iota;
    [|finish_case].
  destruct (bool_decide (retriever.INDEX_NAME ∉ names)); cbv beta iota;
    [finish_case|].
  destruct (Index pc retriever.INDEX_NAME w2) as [[idx|e] w3]; cbv beta iota;
    finish_case.
Qed.

Lemma ensure_spec (gw : state) :
  exists b gw',
    ensure gw = (Returns b, gw')
    /\ retriever.retriever_initialized gw'.1 = b
    /\ (retriever.retriever_initialized gw.1 = true -> gw' = gw)
    /\ (ready gw.1 -> ready gw'.1).
Proof.
  unfold retriever.ensure_initialized, retriever.read, mbind, M_bind at 1.
  cbv beta iota.
  destruct (retriever.retriever_initialized gw.1) eqn:Hflag.
  - exists true, gw. by split_and!.
  - destruct (initialize_spec gw) as (b & gw' & Hinit & _ & Hb & _ & Hready).
    exists b, gw'. split_and!; [done|by apply Hb|done|done].
Qed.

Lemma get_query_embedding_spec text (gw : state) :
  exists r gw',
    embedding text gw = (Returns r, gw')
    /\ (retriever.retriever_initialized gw.1 = true -> gw'.1 = gw.1)
    /\ (ready gw.1 -> ready gw'.1).
Proof.
  destruct (ensure_spec gw) as (b & gw1 & Hensure & Hb & Hsame & Hready).
  unfold retriever.get_query_embedding, mbind, M_bind at 1. rewrite Hensure.
  destruct b; cbv beta iota delta [negb].
  2:{ exists None, gw1. split_and!; [done| |done]. intros Hflag. by rewrite Hsame. }
  unfold try_except, mbind, M_bind, retriever.call, lift, mret, M_ret.
  destruct (embeddings_create text retriever.EMBEDDING_MODEL gw1.2)
    as [[data|e] w']; cbv beta iota.
  - destruct (subscript data 0) as [v|e]; eexists _, _;
      (split_and!; [done| |done]); intros Hflag; by rewrite Hsame.
  - eexists _, _. split_and!; [done| |done]. intros Hflag. by rewrite Hsame.
Qed.

Lemma retrieve_relevant_chunks_spec query top_k (gw : state) :
  exists r gw',
    chunks query top_k gw = (Returns r, gw')
    /\ (retriever.retriever_initialized gw.1 = true -> gw'.1 = gw.1)
    /\ (ready gw.1 -> ready gw'.1).
Proof.
  destruct (ensure_spec gw) as (b & gw1 & Hensure & Hb & Hsame & Hready).
  unfold retriever.retrieve_relevant_chunks, mbind, M_bind at 1. rewrite Hensure.
  destruct b; cbv beta iota delta [negb].
  2:{ exists [], gw1. split_and!; [done| |done]. intros Hflag. by rewrite Hsame. }
  destruct (get_query_embedding_spec query gw1)
    as (r & gw2 & Hemb & Hsame2 & Hready2).
  unfold mbind, M_bind at 1. rewrite Hemb.
  assert (Hkeep : retriever.retriever_initialized gw.1 = true -> gw2.1 = gw.1).
  { intros Hflag. rewrite Hsame2 by done. by rewrite Hsame. }
  destruct r as [v|]; [|exists [], gw2; split_and!; by eauto].
  unfold try_except, mbind, M_bind, retriever.read, retriever.call, lift,
    mret, M_ret. cbv beta iota.
  destruct (retriever.pinecone_index_retriever gw2.1) as [index|];
    cbv beta iota delta [retriever.index_attribute];
    [|destruct gw2; eexists _, _; split_and!; by eauto].
  destruct (index_query index v top_k true gw2.2) as [[matches|e] w3];
    eexists _, _; split_and!; by eauto.
Qed.

(** X12: the three functions of [retriever.py] never raise: whatever the
    services do and whatever the module variables hold,
    [initialize_retriever_pinecone] returns a boolean,
    [get_query_embedding] an embedding or [None], and
    [retrieve_relevant_chunks] a list. *)
Theorem retriever_never_raises (text : str) (top_k : nat) (gw : state) :
  (exists b gw', initialize gw = (Returns b, gw'))
  /\ (exists r gw', embedding text gw = (Returns r, gw'))
  /\ (exists r gw', chunks text top_k gw = (Returns r, gw')).
Proof.
  split_and!.
  - destruct (initialize_spec gw) as (b & gw' & H & _). by eauto.
  - destruct (get_query_embedding_spec text gw) as (r & gw' & H & _). by eauto.
  - destruct (retrieve_relevant_chunks_spec text top_k gw) as (r & gw' & H & _).
    by eauto.
Qed.

(** X13: whenever [retriever_initialized] is true, the index has been
    assigned.  This holds when the module is loaded and each of the three
    functions keeps it, whatever the services do. *)
Theorem retriever_initialized_means_index (text : str) (top_k : nat) (gw : state) :
  ready (retriever.Globals None None false)
  /\ (ready gw.1 ->
      ready (initialize gw).2.1
      /\ ready (embedding text gw).2.1
      /\ ready (chunks text top_k gw).2.1).
Proof.
  split; [by intros [=]|]. intros Hready.
  destruct (initialize_spec gw) as (b & gw1 & -> & _ & _ & _ & H1).
  destruct (get_query_embedding_spec text gw) as (r & gw2 & -> & _ & H2).
  destruct (retrieve_relevant_chunks_spec text top_k gw) as (r' & gw3 & -> & _ & H3).
  split_and!; by eauto.
Qed.

(** X14: [initialize_retriever_pinecone] returns the value that
    [retriever_initialized] has when it ends.  When the module is not
    initialized and one of the two environment variables is missing or
    empty, it returns [False] without calling Pinecone and changes
    nothing. *)
Theorem initialize_returns_the_flag (gw : state) :
  (exists gw',
     initialize gw = (Returns (retriever.retriever_initialized gw'.1), gw'))
  /\ (retriever.retriever_initialized gw.1 = false ->
      truthy PINECONE_API_KEY = false \/ truthy PINECONE_ENVIRONMENT = false ->
      initialize gw = (Returns false, gw)).
Proof.
  split.
  - destruct (initialize_spec gw) as (b & gw' & Hinit & _ & Hoff & Hon & _).
    exists gw'. rewrite Hinit. do 2 f_equal.
    destruct (retriever.retriever_initialized gw.1) eqn:Hflag.
    + destruct (Hon eq_refl) as [-> ->]. by rewrite Hflag.
    + by rewrite Hoff.
  - intros Hflag Henv. destruct gw as [[pc0 idx0 flag] w]. cbn in Hflag. subst flag.
    run_retriever.
    cbn [retriever.retriever_initialized].
    by destruct Henv as [-> | ->]; cbn; rewrite ?orb_true_r.
Qed.

(** X15: once [retriever_initialized] is true the module variables are
    never touched again: [initialize_retriever_pinecone] returns [True]
    without calling any service, and [get_query_embedding] and
    [retrieve_relevant_chunks] leave the three variables as they are. *)
Theorem retriever_initialized_once (text : str) (top_k : nat) (gw : state) :
  retriever.retriever_initialized gw.1 = true ->
  initialize gw = (Returns true, gw)
  /\ (embedding text gw).2.1 = gw.1
  /\ (chunks text top_k gw).2.1 = gw.1.
Proof.
  intros Hflag.
  destruct (initialize_spec gw) as (b & gw1 & H1 & _ & _ & Hon & _).
  destruct (get_query_embedding_spec text gw) as (r & gw2 & -> & H2 & _).
  destruct (retrieve_relevant_chunks_spec text top_k gw) as (r' & gw3 & -> & H3 & _).
  destruct (Hon Hflag) as [-> ->]. split_and!; by eauto.
Qed.

Lemma relevant_chunk_entries (m : index_match float) :
  dom (retriever.relevant_chunk m)
  = ({[ "id"; "score"; "text"; "source"; "title"; "topic_title" ]} : gset string)
  /\ retriever.relevant_chunk m !! "id" = Some (FStr (match_id m))
  /\ retriever.relevant_chunk m !! "score" = Some (FFloat (match_score m))
  /\ retriever.relevant_chunk m !! "text"
     = Some (FStr (get (match_metadata m) "combined_text" []))
  /\ retriever.relevant_chunk m !! "source"
     = Some (FStr (get (match_metadata m) "source" (lit "unknown")))
  /\ retriever.relevant_chunk m !! "title"
     = Some (FStr (get (match_metadata m) "title" []))
  /\ retriever.relevant_chunk m !! "topic_title"
     = Some (FStr (get (match_metadata m) "topic_title" []))
  /\ retriever.relevant_chunk m !! "url" = None.
Proof.
  unfold retriever.relevant_chunk. split_and!.
  - rewrite !dom_insert_L, dom_singleton_L. set_solver.
  - by simplify_map_eq.
  - by simplify_map_eq.
  - by simplify_map_eq.
  - by simplify_map_eq.
  - by simplify_map_eq.
  - by simplify_map_eq.
  - by simplify_map_eq.
Qed.

(** X16: [retrieve_relevant_chunks] on an initialized module.  When the
    embedding endpoint raises or returns no embedding the result is the
    empty list and the index is not queried; when the query of the index
    raises the result is the empty list too.  Otherwise the index is
    queried with the first embedding and the result has one dict per
    match, in order, with the keys [id], [score], [text], [source],
    [title] and [topic_title] (and no [url]); the text is the
    [combined_text] of the metadata, and a missing entry of the metadata
    gives the empty string, or [unknown] for the source. *)
Theorem retrieve_relevant_chunks_on_initialized
    (query : str) (top_k : nat) (g : retriever.globals client index_handle)
    (index : index_handle) (w : world) :
  retriever.retriever_initialized g = true ->
  retriever.pinecone_index_retriever g = Some index ->
  (forall e w1,
     embeddings_create query retriever.EMBEDDING_MODEL w = (Raises e, w1) ->
     chunks query top_k (g, w) = (Returns [], (g, w1)))
  /\ (forall w1,
        embeddings_create query retriever.EMBEDDING_MODEL w = (Returns [], w1) ->
        chunks query top_k (g, w) = (Returns [], (g, w1)))
  /\ (forall v others w1 e w2,
        embeddings_create query retriever.EMBEDDING_MODEL w
        = (Returns (v :: others), w1) ->
        index_query index v top_k true w1 = (Raises e, w2) ->
        chunks query top_k (g, w) = (Returns [], (g, w2)))
  /\ (forall v others w1 matches w2,
        embeddings_create query retriever.EMBEDDING_MODEL w
        = (Returns (v :: others), w1) ->
        index_query index v top_k true w1 = (Returns matches, w2) ->
        exists result,
          chunks query top_k (g, w) = (Returns result, (g, w2))
          /\ length result = length matches
          /\ forall i m, matches !! i = Some m ->
               exists d, result !! i = Some d
                 /\ dom d = ({[ "id"; "score"; "text"; "source"; "title";
                                "topic_title" ]} : gset string)
                 /\ d !! "text"
                    = Some (FStr (get (match_metadata m) "combined_text" []))
                 /\ d !! "source"
                    = Some (FStr (get (match_metadata m) "source" (lit "unknown")))
                 /\ d !! "title" = Some (FStr (get (match_metadata m) "title" []))
                 /\ d !! "topic_title"
                    = Some (FStr (get (match_metadata m) "topic_title" []))).
Proof.
  intros Hflag Hindex.
  assert (Hrun : chunks query top_k (g, w)
    = match embeddings_create query retriever.EMBEDDING_MODEL w with
      | (Returns (v :: _), w1) =>
          match index_query index v top_k true w1 with
          | (Returns matches, w2) =>
              (Returns (retriever.relevant_chunk <$> matches), (g, w2))
          | (Raises _, w2) => (Returns [], (g, w2))
          end
      | (Returns [], w1) => (Returns [], (g, w1))
      | (Raises _, w1) => (Returns [], (g, w1))
      end).
  { run_retriever. rewrite Hflag. cbv beta iota delta [negb fst snd].
    rewrite Hflag. cbv beta iota delta [negb fst snd].
    destruct (embeddings_create query retriever.EMBEDDING_MODEL w)
      as [[[|v others]|e] w1]; cbv beta iota delta [fst snd]; [done| |done].
    unfold subscript. cbn [lookup list_lookup]. cbv beta iota delta [fst snd].
    rewrite Hindex. cbv beta iota delta [retriever.index_attribute].
    by destruct (index_query index v top_k true w1) as [[matches|e] w2]. }
  split_and!.
  - intros e w1 He. by rewrite Hrun, He.
  - intros w1 He. by rewrite Hrun, He.
  - intros v others w1 e w2 He Hq. by rewrite Hrun, He, Hq.
  - intros v others w1 matches w2 He Hq. rewrite Hrun, He, Hq.
    eexists. split_and!; [done|by rewrite length_fmap|].
    intros i m Hm. exists (retriever.relevant_chunk m).
    split; [by rewrite list_lookup_fmap, Hm|].
    destruct (relevant_chunk_entries m) as (? & _ & _ & ? & ? & ? & ? & _).
    by split_and!.
Qed.

End RetrieverProperties.

(** An initialized module over services that would fail: no service is
    called by [initialize_retriever_pinecone]. *)
Lemma retriever_initialized_once_witness :
  retriever.retriever_initialized (initialized_globals, @nil call).1 = true
  /\ retriever.initialize_retriever_pinecone (list call) unit unit None None
       unreachable_pinecone no_index_names any_index (initialized_globals, [])
     = (Returns true, (initialized_globals, [])).
Proof.
  assert (H : retriever.retriever_initialized (initialized_globals, @nil call).1
              = true) by reflexivity.
  split; [exact H|].
  exact (proj1 (retriever_initialized_once (list call) nat unit unit None None
                  unreachable_pinecone no_index_names any_index
                  (stub_index_query (Returns [sample_match]))
                  (stub_embeddings (Returns [[1; 2]]))
                  (lit "What is OLS regression?") 5 (initialized_globals, []) H)).
Defined.

(** An initialized module, an embedding and one match: one chunk, whose
    source is [unknown] and whose topic title is empty. *)
Lemma retrieve_relevant_chunks_on_initialized_witness :
  retriever.retriever_initialized initialized_globals = true
  /\ retriever.pinecone_index_retriever initialized_globals = Some ()
  /\ forall e w1,
       stub_embeddings (Raises (ServiceError (lit "rate limit")))
         (lit "What is OLS regression?") retriever.EMBEDDING_MODEL [] = (Raises e, w1) ->
       retriever.retrieve_relevant_chunks (list call) nat unit unit None None
         unreachable_pinecone no_index_names any_index
         (stub_index_query (Returns [sample_match]))
         (stub_embeddings (Raises (ServiceError (lit "rate limit"))))
         (lit "What is OLS regression?") 5 (initialized_globals, [])
       = (Returns [], (initialized_globals, w1)).
Proof.
  assert (H1 : retriever.retriever_initialized initialized_globals = true)
    by reflexivity.
  assert (H2 : retriever.pinecone_index_retriever initialized_globals = Some ())
    by reflexivity.
  split; [exact H1|]. split; [exact H2|].
  exact (proj1 (retrieve_relevant_chunks_on_initialized (list call) nat unit unit
                  None None unreachable_pinecone no_index_names any_index
                  (stub_index_query (Returns [sample_match]))
                  (stub_embeddings (Raises (ServiceError (lit "rate limit"))))
                  (lit "What is OLS regression?") 5 initialized_globals () []
                  H1 H2)).
Defined.

Example one_chunk_retrieved :
  (retriever.retrieve_relevant_chunks (list call) nat unit unit None None
     unreachable_pinecone no_index_names any_index
     (stub_index_query (Returns [sample_match]))
     (stub_embeddings (Returns [[1; 2]]))
     (lit "What is OLS regression?") 5 (initialized_globals, []))
  = (Returns [ retriever.relevant_chunk sample_match ],
     (initialized_globals,
      [ EmbedCall (lit "What is OLS regression?"); QueryCall 5 ]))
  /\ retriever.relevant_chunk sample_match !! "text" = Some (FStr (lit "Use OLS."))
  /\ retriever.relevant_chunk sample_match !! "source" = Some (FStr (lit "unknown"))
  /\ retriever.relevant_chunk sample_match !! "topic_title" = Some (FStr []).
Proof. split_and!; vm_compute; reflexivity. Qed.

(** A module that was never initialized, over an unreachable Pinecone:
    the initialization fails, nothing is retrieved, and no embedding is
    asked for. *)
Example nothing_retrieved_when_uninitialized :
  retriever.retrieve_relevant_chunks (list call) nat unit unit
    (Some (lit "key")) (Some (lit "env"))
    unreachable_pinecone no_index_names any_index
    (stub_index_query (Returns [sample_match]))
    (stub_embeddings (Returns [[1; 2]]))
    (lit "What is OLS regression?") 5 (retriever.Globals None None false, [])
  = (Returns [], (retriever.Globals None None false, [])).
Proof. vm_compute. reflexivity. Qed.

(** * The prompt and the two endpoints *)

Lemma join_lookup (sep : str) (parts : list str) i block :
  parts !! i = Some block ->
  exists before after, join sep parts = before ++ block ++ after.
Proof.
  revert i. induction parts as [|p parts IH]; intros i Hi; [done|].
  destruct i as [|i]; cbn in Hi.
  - inversion Hi; subst. destruct parts as [|p' parts].
    + exists [], []. cbn. by rewrite app_nil_r.
    + exists [], (sep ++ join sep (p' :: parts)). done.
  - destruct (IH i Hi) as (before & after & Hjoin).
    destruct parts as [|p' parts]; [done|].
    exists (p ++ sep ++ before), after.
    change (join sep (p :: p' :: parts)) with (p ++ sep ++ join sep (p' :: parts)).
    rewrite Hjoin. by rewrite <- !app_assoc.
Qed.

(** X17: the system message sent to the chat endpoint starts with the
    system prompt, and the block of every admitted passage, with its
    title, its url and its full text, is part of what follows. *)
Theorem admitted_blocks_are_in_the_prompt
    (encoding_for_model : str -> str -> list nat)
    (query : str) (docs : list doc) (imgs : option (list str))
    (i : nat) (block : str) :
  context_str_parts (pack_context encoding_for_model query docs imgs) !! i
  = Some block ->
  exists d before after,
    docs !! i = Some d
    /\ block = doc_for_llm d
    /\ messages (chat_request_of encoding_for_model query docs imgs) !! 0
       = Some {| role := lit "system";
                 content := Text (system_prompt_template
                                  ++ before ++ doc_for_llm d ++ after) |}.
Proof.
  intros Hblock.
  destruct (join_lookup nl _ i block Hblock) as (before & after & Hjoin).
  unfold pack_context in Hblock.
  destruct (pack_prefix
              (fun s => length (encoding_for_model (llm_model_to_use imgs) s))
              (max_tokens_for_llm_effective imgs) RESERVED_QUERY_TOKENS query docs)
    as (k & _ & Hparts & _).
  rewrite Hparts, list_lookup_fmap in Hblock.
  destruct (take k docs !! i) as [d|] eqn:Hd; [|done].
  cbn in Hblock. inversion Hblock; subst block.
  exists d, before, after. split_and!; [|done|].
  - apply lookup_take_Some in Hd. by destruct Hd.
  - cbn. unfold full_context_str. by rewrite Hjoin.
Qed.

Lemma admitted_blocks_are_in_the_prompt_witness :
  exists d before after,
    ranked_passages !! 1 = Some d
    /\ doc_for_llm (passage [] [] (filler 64)) = doc_for_llm d
    /\ messages (chat_request_of char_encoding (filler 26) ranked_passages None) !! 0
       = Some {| role := lit "system";
                 content := Text (system_prompt_template
                                  ++ before ++ doc_for_llm d ++ after) |}.
Proof.
  apply (admitted_blocks_are_in_the_prompt char_encoding (filler 26)
           ranked_passages None 1 (doc_for_llm (passage [] [] (filler 64)))).
  vm_compute. reflexivity.
Defined.

